(** * Experiment panel: lazy binary-tree view, expansion store, process runner

    A shallow embedding of [components/experiment_panel.py]:
    - [count_descendants] and [build_tree_elements], the lazy rendering of the
      complete binary tree on indices [0 .. num-1];
    - [update_network_topology] and [expand_node], the two Dash callbacks that
      drive the view and the store of expanded nodes;
    - [run_benchmark] and [start_experiment], which write to the shared
      [terminal_logs] buffer.

    Python integers are [Z]; Python strings are [string]; a list is a [list];
    a float is taken by what the callbacks observe of it.
    The recursive helpers recurse on a growing index, so they take the depth of
    the call stack still available as [fuel]: [None] stands for a recursion
    that does not return within that depth.  The copies of the log messages
    that [print] sends to the local terminal, the page layout and the
    callbacks that only toggle or decorate it are left out. *)

From Stdlib Require Import ZArith List String Ascii Bool Lia.
From Stdlib Require Import Relations Operators_Properties.
From Stdlib Require Import DecimalString DecimalZ DecimalPos DecimalN.
From Stdlib Require Import FinFun.
Import ListNotations.

Local Open Scope string_scope.
Local Open Scope list_scope.
Local Open Scope Z_scope.

(** ** Option as the monad of partial results *)

Definition obind {A B : Type} (m : option A) (k : A -> option B) : option B :=
  match m with
  | Some a => k a
  | None => None
  end.

Notation "x <- m ;; k" := (obind m (fun x => k))
  (at level 61, m at next level, right associativity).

(** ** The binary tree on array indices *)

(** [count_descendants(i, num)], lines 13-25. *)
Fixpoint count_descendants (fuel : nat) (i num : Z) : option Z :=
  match fuel with
  | O => None
  | S fuel' =>
      let count := 0 in
      let left := 2 * i + 1 in
      let right := 2 * i + 2 in
      count <- (if left <? num
                then d <- count_descendants fuel' left num ;; Some (count + (1 + d))
                else Some count) ;;
      count <- (if right <? num
                then d <- count_descendants fuel' right num ;; Some (count + (1 + d))
                else Some count) ;;
      Some count
  end.

(** The specification side: [j] is derived from [i] as a child index, and
    reachability is the reflexive-transitive closure of that step. *)
Definition child (i j : Z) : Prop := j = 2 * i + 1 \/ j = 2 * i + 2.

Definition reachable : Z -> Z -> Prop := clos_refl_trans Z child.

(** [l] lists, without repetition, the proper descendants of [i] below [num]. *)
Definition descendants_of (i num : Z) (l : list Z) : Prop :=
  NoDup l /\ forall j, In j l <-> (i < j < num /\ reachable i j).

(** ** Python values that reach the callbacks *)

(** A float, taken by what the callbacks can observe of it: whether it is
    zero (its truth value), what [int()] makes of it (its truncation; [None]
    stands for the [ValueError] on nan and the [OverflowError] on an
    infinity), and its [str()]. *)
Record pyfloat : Type := mk_float
  { float_is_zero : bool; float_int : option Z; float_str : string }.

(** The value of a form field or of a stored entry: absent ([None]), an
    integer, text, or a float. *)
Inductive pyval : Type :=
| PyNone
| PyInt (z : Z)
| PyStr (s : string)
| PyFloat (f : pyfloat).

(** [str(i)] on an integer: decimal digits, ["-"] in front of a negative one. *)
Definition str (z : Z) : string := NilZero.string_of_int (Z.to_int z).

(** The newline character of the log messages. *)
Definition nl : string := String (ascii_of_nat 10) EmptyString.

(** [int(s)] on text: surrounding whitespace (tab, line feed, vertical tab,
    form feed, carriage return, space) is dropped, one sign is allowed, and
    the digits may be separated by single underscores.  [None] stands for the
    [ValueError] Python raises.  This is what CPython does on the texts
    [plain_text] below accepts; on other texts its answer depends on its
    Unicode tables and on its limit on the number of digits. *)
Definition is_space (c : ascii) : bool :=
  let n := nat_of_ascii c in
  ((9 <=? n)%nat && (n <=? 13)%nat) || (n =? 32)%nat.

Definition is_digit (c : ascii) : bool :=
  let n := nat_of_ascii c in (48 <=? n)%nat && (n <=? 57)%nat.

Fixpoint lstrip (s : string) : string :=
  match s with
  | EmptyString => EmptyString
  | String c s' => if is_space c then lstrip s' else s
  end.

Fixpoint rstrip (s : string) : string :=
  match s with
  | EmptyString => EmptyString
  | String c s' =>
      match rstrip s' with
      | EmptyString => if is_space c then EmptyString else String c EmptyString
      | r => String c r
      end
  end.

Fixpoint drop_underscores (s : string) (after_digit : bool) : option string :=
  match s with
  | EmptyString => if after_digit then Some EmptyString else None
  | String c s' =>
      if is_digit c then option_map (String c) (drop_underscores s' true)
      else if Ascii.eqb c "_" && after_digit then drop_underscores s' false
      else None
  end.

Definition py_digits (s : string) : option Z :=
  t <- drop_underscores s false ;;
  option_map Z.of_uint (NilZero.uint_of_string t).

Definition py_int_of_str (s : string) : option Z :=
  match rstrip (lstrip s) with
  | EmptyString => None
  | String c rest as body =>
      if Ascii.eqb c "-" then option_map Z.opp (py_digits rest)
      else if Ascii.eqb c "+" then py_digits rest
      else py_digits body
  end.

(** The texts on which [py_int_of_str] is CPython's [int]: ASCII only, with
    at most 4300 digits (the interpreter's default limit, where it has one). *)
Fixpoint all_ascii (s : string) : bool :=
  match s with
  | EmptyString => true
  | String c s' => (nat_of_ascii c <? 128)%nat && all_ascii s'
  end.

Fixpoint count_digits (s : string) : nat :=
  match s with
  | EmptyString => 0
  | String c s' => ((if is_digit c then 1 else 0) + count_digits s')%nat
  end.

Definition plain_text (s : string) : bool :=
  all_ascii s && (count_digits s <=? 4300)%nat.

(** [int(v)]; [None] stands for the exception ([TypeError] on [None],
    [ValueError] on text that is not a number or on nan, [OverflowError] on
    an infinity). *)
Definition py_int (v : pyval) : option Z :=
  match v with
  | PyNone => None
  | PyInt z => Some z
  | PyStr s => py_int_of_str s
  | PyFloat f => float_int f
  end.


(** Truth value of a field, as [all([...])] and [if n_clicks:] test it. *)
Definition truthy (v : pyval) : bool :=
  match v with
  | PyNone => false
  | PyInt z => negb (z =? 0)
  | PyStr s => negb (String.eqb s EmptyString)
  | PyFloat f => negb (float_is_zero f)
  end.

(** The node count both graph callbacks derive from the form field:
    [try: num = int(num_nodes) if num_nodes is not None else 3 / except: num = 3]. *)
Definition node_count (num_nodes : pyval) : Z :=
  match num_nodes with
  | PyNone => 3
  | _ => match py_int num_nodes with
         | Some n => n
         | None => 3
         end
  end.

(** ** Cytoscape elements *)

Record node_data : Type := mk_node
  { id : string; label : string; cpu : string; memory : string }.

Record edge_data : Type := mk_edge
  { source : string; target : string; bandwidth : Z }.

Inductive element : Type :=
| Node (d : node_data)
| Edge (d : edge_data).

(** [i in expanded] on a list of integers. *)
Definition mem (i : Z) (l : list Z) : bool := existsb (Z.eqb i) l.

(** [add_node(i)], the closure of [build_tree_elements] (lines 36-56); the
    list [elements] it appends to is threaded through. *)
Fixpoint add_node (fuel : nat) (num : Z) (expanded : list Z) (i : Z)
                  (elements : list element) : option (list element) :=
  match fuel with
  | O => None
  | S fuel' =>
      if num <=? i then Some elements
      else
        let left := 2 * i + 1 in
        let right := 2 * i + 2 in
        let has_children := left <? num in
        label <- (if has_children && negb (mem i expanded)
                  then descendant_count <- count_descendants fuel' i num ;;
                       Some ("Node " ++ str i ++ " [+" ++ str descendant_count ++ "]")%string
                  else Some ("Node " ++ str i)%string) ;;
        let elements := elements ++ [Node (mk_node (str i) label "2.5 GHz" "8GB")] in
        if mem i expanded then
          elements <- (if left <? num
                       then elements <- add_node fuel' num expanded left elements ;;
                            Some (elements ++ [Edge (mk_edge (str i) (str left) 100)])
                       else Some elements) ;;
          elements <- (if right <? num
                       then elements <- add_node fuel' num expanded right elements ;;
                            Some (elements ++ [Edge (mk_edge (str i) (str right) 100)])
                       else Some elements) ;;
          Some elements
        else Some elements
  end.

(** [build_tree_elements(num, expanded)], lines 28-58. *)
Definition build_tree_elements (fuel : nat) (num : Z) (expanded : list Z)
  : option (list element) :=
  add_node fuel num expanded 0 [].

(** [range(num)]. *)
Definition range (num : Z) : list Z := map Z.of_nat (seq 0 (Z.to_nat num)).

(** [update_network_topology(num_nodes, topology_type, expanded)],
    lines 358-379. *)
Definition update_network_topology (fuel : nat) (num_nodes topology_type : pyval)
                                   (expanded : option (list Z))
  : option (list element) :=
  let num := node_count num_nodes in
  if num <=? 3 then
    let elements := [] in
    let elements :=
      fold_left
        (fun elements i =>
           elements ++ [Node (mk_node (str i) ("Node " ++ str i)%string "2.5 GHz" "8GB")])
        (range num) elements in
    let elements :=
      fold_left
        (fun elements i =>
           let left := 2 * i + 1 in
           let right := 2 * i + 2 in
           let elements :=
             if left <? num
             then elements ++ [Edge (mk_edge (str i) (str left) 100)]
             else elements in
           if right <? num
           then elements ++ [Edge (mk_edge (str i) (str right) 100)]
           else elements)
        (range num) elements in
    Some elements
  else
    let expanded := match expanded with
                    | None => []
                    | Some l => l
                    end in
    build_tree_elements fuel num expanded.

(** ** The store of expanded nodes *)

(** What a callback hands back to Dash: a new value for its output, the
    [PreventUpdate] signal, or an exception it did not catch. *)
Inductive callback (A : Type) : Type :=
| Updated (a : A)
| PreventUpdate
| Uncaught.

Arguments Updated {A} a.
Arguments PreventUpdate {A}.
Arguments Uncaught {A}.

(** [expand_node(tapData, expanded_data, num_nodes)], lines 388-405. *)
Definition expand_node (tapData : option node_data)
                       (expanded_data : option (list Z)) (num_nodes : pyval)
  : callback (list Z) :=
  match tapData with
  | None => PreventUpdate
  | Some tap =>
      let num := node_count num_nodes in
      match py_int_of_str (id tap) with
      | None => Uncaught
      | Some node_id =>
          if 2 * node_id + 1 >=? num then PreventUpdate
          else
            let expanded_data := match expanded_data with
                                 | None => []
                                 | Some l => l
                                 end in
            let expanded_data :=
              if negb (mem node_id expanded_data)
              then expanded_data ++ [node_id]
              else expanded_data in
            Updated expanded_data
      end
  end.

(** The store after the callback: only an [Updated] result replaces it. *)
Definition store_after {A : Type} (old : option A) (r : callback A) : option A :=
  match r with
  | Updated a => Some a
  | PreventUpdate | Uncaught => old
  end.

(** The expanded set a store value denotes; the view reads [None] as empty. *)
Definition expanded_set (data : option (list Z)) : list Z :=
  match data with
  | None => []
  | Some l => l
  end.

(** The click on the node the view drew for index [i]. *)
Definition tap_on (i : Z) (lbl : string) : option node_data :=
  Some (mk_node (str i) lbl "2.5 GHz" "8GB").

(** ** The shared log buffer *)

(** A step either returns or raises; [Raise e] carries the text of the
    exception. *)
Inductive outcome (A : Type) : Type :=
| Return (a : A)
| Raise (e : string).

Arguments Return {A} a.
Arguments Raise {A} e.

(** Code that reads and appends to the global [terminal_logs] and may raise:
    the buffer goes in, the outcome and the buffer come out.  What was
    appended before an exception stays in the buffer. *)
Definition Log (A : Type) : Type := string -> outcome A * string.

Definition ret {A : Type} (a : A) : Log A := fun logs => (Return a, logs).

Definition raise {A : Type} (e : string) : Log A := fun logs => (Raise e, logs).

Definition bind {A B : Type} (m : Log A) (k : A -> Log B) : Log B :=
  fun logs =>
    match m logs with
    | (Return a, logs') => k a logs'
    | (Raise e, logs') => (Raise e, logs')
    end.

(** [try: body / except Exception as e: handler(e)]. *)
Definition try_except {A : Type} (body : Log A) (handler : string -> Log A) : Log A :=
  fun logs =>
    match body logs with
    | (Return a, logs') => (Return a, logs')
    | (Raise e, logs') => handler e logs'
    end.

(** [with terminal_lock: terminal_logs += msg]. *)
Definition log_append (msg : string) : Log unit :=
  fun logs => (Return tt, (logs ++ msg)%string).

(** A call into the operating system whose outcome is given. *)
Definition perform {A : Type} (o : outcome A) : Log A :=
  fun logs => (o, logs).

Declare Scope log_scope.
Delimit Scope log_scope with log.
Notation "x <- m ;; k" := (bind m (fun x => k))
  (at level 61, m at next level, right associativity) : log_scope.
Notation "m ;; k" := (bind m (fun _ => k))
  (at level 61, right associativity) : log_scope.

(** The five form fields, as [start_experiment] packs them. *)
Record params : Type := mk_params
  { data_set : pyval;
    query : pyval;
    hardware_heterogeneity : pyval;
    network_topology : pyval;
    num_of_nodes : pyval }.

(** The spawned benchmark as the runner sees it: what the successive calls of
    [process.stdout.readline()] give (past the end of the list the stream is
    at its end and [readline] gives the empty string), what
    [process.stderr.read()] gives, and what [process.wait()] returns. *)
Record process : Type := mk_process
  { stdout_readline : list (outcome string);
    stderr_read : outcome string;
    wait : Z }.

(** [for stdout_line in iter(process.stdout.readline, ""): terminal_logs += stdout_line]. *)
Fixpoint read_stdout (reads : list (outcome string)) : Log unit :=
  match reads with
  | [] => ret tt
  | Return stdout_line :: rest =>
      if String.eqb stdout_line EmptyString then ret tt
      else (log_append stdout_line ;; read_stdout rest)%log
  | Raise e :: _ => raise e
  end.

(** The lines of a stream, one after the other. *)
Definition join (lines : list string) : string :=
  fold_right String.append EmptyString lines.

Definition start_marker : string := "Starting experiment..." ++ nl.

Definition success_line : string := "Experiment completed successfully." ++ nl.

Definition failure_line (return_code : Z) : string :=
  "Experiment failed with return code " ++ str return_code ++ "." ++ nl.

Definition error_line (e : string) : string :=
  "Error running experiment: " ++ e ++ nl.

(** [run_benchmark(params)], lines 199-243; [popen] is [subprocess.Popen]
    on the command line built from [params]. *)
Definition run_benchmark (popen : params -> outcome process) (p : params) : Log unit :=
  try_except
    (log_append start_marker ;;
     process <- perform (popen p) ;;
     read_stdout (stdout_readline process) ;;
     stderr <- perform (stderr_read process) ;;
     (if negb (String.eqb stderr EmptyString) then log_append stderr else ret tt) ;;
     let return_code := wait process in
     let msg := if return_code =? 0 then success_line
                else failure_line return_code in
     log_append msg)%log
    (fun e => log_append (error_line e)).

Definition required_message : string :=
  "All fields are required to start an experiment." ++ nl.

Definition separator : string :=
  "--------------------------------------------------" ++ nl.

(** What [start_experiment] leaves behind besides the log: the value it
    returns for [n_clicks] and the runner thread it started, if any, with the
    parameters handed to [run_benchmark]. *)
Record start_result : Type := mk_start
  { n_clicks_out : Z;
    started : option params }.

(** [start_experiment(n_clicks, ...)], lines 319-338. *)
Definition start_experiment (n_clicks data_set query hardware_heterogeneity
                             network_topology num_of_nodes : pyval)
  : Log start_result :=
  if truthy n_clicks then
    if negb (forallb truthy [data_set; query; hardware_heterogeneity;
                             network_topology; num_of_nodes])
    then (log_append required_message ;;
          ret (mk_start 0 None))%log
    else
      let p := mk_params data_set query hardware_heterogeneity
                         network_topology num_of_nodes in
      (log_append separator ;;
       ret (mk_start 0 (Some p)))%log
  else ret (mk_start 0 None).

(** ** What the properties speak about *)


(** Text made of decimal digits only. *)
Fixpoint all_digits (s : string) : bool :=
  match s with
  | EmptyString => true
  | String c s' => is_digit c && all_digits s'
  end.

(** What a list of elements shows: the ids of its nodes, its edges. *)
Definition node_ids (els : list element) : list string :=
  flat_map (fun e => match e with
                     | Node d => [id d]
                     | Edge _ => []
                     end) els.

Definition edges_of (els : list element) : list edge_data :=
  flat_map (fun e => match e with
                     | Node _ => []
                     | Edge d => [d]
                     end) els.

(** [j] lies in the subtree of [i], below [num], and every node on the way
    from [i] down to [j], [j] excepted, is expanded. *)
Definition shown_below (num : Z) (expanded : list Z) (i j : Z) : Prop :=
  j < num /\ reachable i j /\
  forall a, reachable i a -> a <> j -> reachable a j -> In a expanded.

(** An edge of the index tree with both ends below [num]. *)
Definition tree_edge (num : Z) (e : edge_data) : Prop :=
  exists i, 0 <= i /\ source e = str i /\ bandwidth e = 100 /\
            ((target e = str (2 * i + 1) /\ 2 * i + 1 < num) \/
             (target e = str (2 * i + 2) /\ 2 * i + 2 < num)).

(** Node [j] is in the tree and every proper ancestor of [j] is expanded. *)
Definition visible (num : Z) (expanded : list Z) (j : Z) : Prop :=
  0 <= j < num /\
  forall a, 0 <= a -> a <> j -> reachable a j -> In a expanded.

(** The lines the read loop takes in: those before the first empty read,
    the first error, or the end of the reads. *)
Fixpoint lines_read (reads : list (outcome string)) : list string :=
  match reads with
  | Return line :: rest =>
      if String.eqb line EmptyString then [] else line :: lines_read rest
  | _ => []
  end.

(** The error that ends the read loop, if one does. *)
Fixpoint read_error (reads : list (outcome string)) : option string :=
  match reads with
  | [] => None
  | Return line :: rest =>
      if String.eqb line EmptyString then None else read_error rest
  | Raise e :: _ => Some e
  end.

(** The benchmark writes a line, then bytes the reader cannot decode, then a
    second line and a warning on stderr, and exits with code 0. *)
Definition garbled_process : process :=
  mk_process [Return ("a" ++ nl)%string; Raise "boom"; Return ("b" ++ nl)%string]
             (Return ("warn" ++ nl)%string) 0.

Definition some_params : params :=
  mk_params (PyStr "nexmark") (PyStr "q1") (PyStr "homogeneous") (PyStr "tree")
            (PyInt 7).

(** ** Configuration files *)

(** A Python dict with text keys, as a list of entries; a key is looked up
    at its first entry. *)
Definition dict : Type := list (string * pyval).

(** [d.get(key, default)]. *)
Fixpoint dict_get (d : dict) (key : string) (default : pyval) : pyval :=
  match d with
  | [] => default
  | (k, v) :: d' => if String.eqb k key then v else dict_get d' key default
  end.

(** What [load_yaml_from_content] hands back when it does not raise: a
    mapping, or a document of another kind, which has no [get]; [err] is
    the text of the [AttributeError] the call of [get] raises on it. *)
Inductive document : Type :=
| Mapping (entries : dict)
| NotMapping (err : string).

(** [config.get(key, default)] on a loaded document. *)
Definition config_get (config : document) (key : string) (default : pyval)
  : Log pyval :=
  match config with
  | Mapping d => ret (dict_get d key default)
  | NotMapping err => raise err
  end.

(** The five outputs of the form, in the order of the callback. *)
Definition form_values : Type := (pyval * pyval * pyval * pyval * pyval)%type.

Definition blank_form : form_values :=
  (PyStr "", PyStr "", PyStr "", PyStr "", PyNone).

Definition loaded_message : string := "Configuration loaded successfully." ++ nl.

Definition load_error_message (e : string) : string :=
  "Error loading configuration: " ++ e ++ nl.

(** [load_configuration(contents)], lines 286-307; [load_yaml_from_content]
    is the helper of [utils.file_operations]. *)
Definition load_configuration (load_yaml_from_content : pyval -> outcome document)
                              (contents : pyval) : Log form_values :=
  if truthy contents then
    (returned <-
       try_except
         (config <- perform (load_yaml_from_content contents) ;;
          log_append loaded_message ;;
          data_set <- config_get config "Data Set" (PyStr "") ;;
          query <- config_get config "Query" (PyStr "") ;;
          hardware_heterogeneity <-
            config_get config "Hardware Heterogeneity" (PyStr "") ;;
          network_topology <- config_get config "Network Topology" (PyStr "") ;;
          num_of_nodes <- config_get config "Number of Nodes" PyNone ;;
          ret (Some (data_set, query, hardware_heterogeneity,
                     network_topology, num_of_nodes)))
         (fun e => log_append (load_error_message e) ;; ret None) ;;
     match returned with
     | Some values => ret values
     | None => ret blank_form
     end)%log
  else ret blank_form.

(** The value a callback returns for an output: a value, or [dash.no_update]. *)
Inductive output (A : Type) : Type :=
| Value (a : A)
| no_update.

Arguments Value {A} a.
Arguments no_update {A}.

Definition saved_message (filename : string) : string :=
  "Configuration saved to " ++ filename ++ nl.

Definition save_error_message (e : string) : string :=
  "Error saving configuration: " ++ e ++ nl.

(** The dict [save_configuration] builds from the form. *)
Definition config_of (data_set query hardware_heterogeneity network_topology
                      num_of_nodes : pyval) : dict :=
  [("Data Set", data_set);
   ("Query", query);
   ("Hardware Heterogeneity", hardware_heterogeneity);
   ("Network Topology", network_topology);
   ("Number of Nodes", num_of_nodes)].

(** [save_configuration(n_clicks, ...)], lines 256-275; [save_to_yaml] is
    the helper of [utils.file_operations] and returns the file name. *)
Definition save_configuration (save_to_yaml : dict -> outcome string)
                              (n_clicks data_set query hardware_heterogeneity
                               network_topology num_of_nodes : pyval)
  : Log (output Z) :=
  if truthy n_clicks then
    let config := config_of data_set query hardware_heterogeneity
                            network_topology num_of_nodes in
    (msg <- try_except
              (filename <- perform (save_to_yaml config) ;;
               ret (saved_message filename))
              (fun e => ret (save_error_message e)) ;;
     log_append msg ;;
     ret (Value 0))%log
  else ret no_update.

(** [update_terminal(n)], lines 345-349. *)
Definition update_terminal (n : pyval) : Log string :=
  fun terminal_logs =>
    let current_logs := terminal_logs in
    (Return current_logs, terminal_logs).

(** ** Panels and tooltip *)

(** [toggle_terminal(n_clicks, is_open)] and [toggle_network(n_clicks,
    is_open)], lines 415-418 and 425-428: the same body. *)
Definition toggle_terminal (n_clicks : pyval) (is_open : bool) : bool :=
  if truthy n_clicks then negb is_open else is_open.

Definition toggle_network (n_clicks : pyval) (is_open : bool) : bool :=
  if truthy n_clicks then negb is_open else is_open.

(** [needle in hay] on text. *)
Fixpoint contains (needle hay : string) : bool :=
  String.prefix needle hay ||
  match hay with
  | EmptyString => false
  | String _ hay' => contains needle hay'
  end.

(** [str(v)], as an f-string formats a value. *)
Definition py_str (v : pyval) : string :=
  match v with
  | PyNone => "None"
  | PyInt z => str z
  | PyStr s => s
  | PyFloat f => float_str f
  end.

(** The two styles of the tooltip. *)
Definition hidden_style : dict :=
  [("position", PyStr "absolute"); ("display", PyStr "none");
   ("backgroundColor", PyStr "white"); ("padding", PyStr "5px");
   ("border", PyStr "1px solid #ccc"); ("borderRadius", PyStr "3px");
   ("zIndex", PyInt 1000); ("fontSize", PyStr "12px")].

Definition shown_style : dict :=
  [("position", PyStr "absolute"); ("top", PyStr "10px"); ("left", PyStr "10px");
   ("display", PyStr "block"); ("backgroundColor", PyStr "white");
   ("padding", PyStr "5px"); ("border", PyStr "1px solid #ccc");
   ("borderRadius", PyStr "3px"); ("zIndex", PyInt 1000);
   ("fontSize", PyStr "12px")].

(** Truth value of hover data: [None] and the empty dict are false. *)
Definition dict_truthy (d : option dict) : bool :=
  match d with
  | None | Some [] => false
  | Some (_ :: _) => true
  end.

(** [update_tooltip(mouseoverNode, mouseoverEdge, mouseoutNode,
    mouseoutEdge)], lines 439-465; [triggered] lists the [prop_id] of the
    entries of [callback_context.triggered]. *)
Definition update_tooltip (triggered : list string)
                          (mouseoverNode mouseoverEdge
                           mouseoutNode mouseoutEdge : option dict)
  : callback (string * dict) :=
  let ctx_trigger := triggered in
  if match ctx_trigger with [] => false | _ :: _ => true end
     && existsb (contains "mouseout") ctx_trigger
  then Updated (EmptyString, hidden_style)
  else
    match ctx_trigger with
    | prop_id :: _ =>
        if contains "mouseoverNodeData" prop_id && dict_truthy mouseoverNode then
          let d := match mouseoverNode with Some d => d | None => [] end in
          let cpu := dict_get d "cpu" (PyStr "N/A") in
          let memory := dict_get d "memory" (PyStr "N/A") in
          let tooltip_text :=
            ("CPU: " ++ py_str cpu ++ ", Memory: " ++ py_str memory)%string in
          Updated (tooltip_text, shown_style)
        else if contains "mouseoverEdgeData" prop_id && dict_truthy mouseoverEdge then
          let d := match mouseoverEdge with Some d => d | None => [] end in
          let bandwidth := dict_get d "bandwidth" (PyInt 100) in
          let tooltip_text := ("Bandwidth: " ++ py_str bandwidth)%string in
          Updated (tooltip_text, shown_style)
        else PreventUpdate
    | [] => PreventUpdate
    end.

(** The [data] dict of an element, as Cytoscape hands it to the callbacks. *)
Definition node_dict (d : node_data) : dict :=
  [("id", PyStr (id d)); ("label", PyStr (label d));
   ("cpu", PyStr (cpu d)); ("memory", PyStr (memory d))].

Definition edge_dict (d : edge_data) : dict :=
  [("source", PyStr (source d)); ("target", PyStr (target d));
   ("bandwidth", PyInt (bandwidth d))].

(** ** More of what the properties speak about *)

Definition nodes_of (els : list element) : list node_data :=
  flat_map (fun e => match e with
                     | Node d => [d]
                     | Edge _ => []
                     end) els.

(** The label the lazy view gives node [i]: the bare name for a leaf or an
    expanded node, the name with the number of hidden descendants otherwise. *)
Definition lazy_label (num : Z) (expanded : list Z) (i : Z) (lbl : string) : Prop :=
  (((num <= 2 * i + 1 \/ In i expanded) /\ lbl = "Node " ++ str i) \/
   (2 * i + 1 < num /\ ~ In i expanded /\
    exists l, descendants_of i num l /\
              lbl = "Node " ++ str i ++ " [+" ++ str (Z.of_nat (List.length l)) ++ "]"))%string.

(** A node element as the lazy view draws it for some index below [num]. *)
Definition lazy_node (num : Z) (expanded : list Z) (d : node_data) : Prop :=
  exists i, 0 <= i < num /\ id d = str i /\ lazy_label num expanded i (label d) /\
            cpu d = "2.5 GHz"%string /\ memory d = "8GB"%string.

(** Both ends of the edge are ids of nodes of [els]. *)
Definition edge_closed (els : list element) (e : edge_data) : Prop :=
  In (source e) (node_ids els) /\ In (target e) (node_ids els).

(** The indices [lo, lo+1, ..., hi-1]. *)
Definition interval (lo hi : Z) : list Z :=
  map (fun k => lo + Z.of_nat k) (seq 0 (Z.to_nat (hi - lo))).

(** The count [count_descendants(i, num)] returns when the depth allows. *)
Definition descendant_total (num i : Z) : Z :=
  match count_descendants (S (Z.to_nat (num - i))) i num with
  | Some k => k
  | None => 0
  end.

(** The count the label of node [i] shows: its descendants when it has a
    child and is not expanded, nothing otherwise. *)
Definition hidden_behind (num : Z) (expanded : list Z) (i : Z) : Z :=
  if (2 * i + 1 <? num) && negb (mem i expanded)
  then descendant_total num i
  else 0.

Definition hidden_total (num : Z) (expanded : list Z) (ids : list Z) : Z :=
  fold_right Z.add 0 (map (hidden_behind num expanded) ids).

(** The node element the lazy view draws for index [i]. *)
Definition drawn_node (num : Z) (expanded : list Z) (i : Z) : node_data :=
  mk_node (str i)
          (if (2 * i + 1 <? num) && negb (mem i expanded)
           then ("Node " ++ str i ++ " [+" ++ str (hidden_behind num expanded i) ++ "]")%string
           else ("Node " ++ str i)%string)
          "2.5 GHz" "8GB".

(** * Properties *)

(** ** Reachability in the index tree *)

Section Reachability.

Lemma reachable_refl i : reachable i i.
Proof. apply rt_refl. Qed.

Lemma reachable_left i j : reachable (2 * i + 1) j -> reachable i j.
Proof.
  intros H. eapply rt_trans; [apply rt_step; left; reflexivity | exact H].
Qed.

Lemma reachable_right i j : reachable (2 * i + 2) j -> reachable i j.
Proof.
  intros H. eapply rt_trans; [apply rt_step; right; reflexivity | exact H].
Qed.

Lemma reachable_trans i j k : reachable i j -> reachable j k -> reachable i k.
Proof. intros; eapply rt_trans; eassumption. Qed.

(** The first step of a path from [i]. *)
Lemma reachable_inv i j :
  reachable i j -> j = i \/ reachable (2 * i + 1) j \/ reachable (2 * i + 2) j.
Proof.
  intros H. apply clos_rt_rt1n in H. destruct H as [|y z Hc Hr].
  - now left.
  - apply clos_rt1n_rt in Hr. destruct Hc as [-> | ->]; auto.
Qed.

Lemma reachable_le i j : 0 <= i -> reachable i j -> i <= j.
Proof.
  intros Hi H. apply clos_rt_rt1n in H.
  induction H as [x | x y z Hc _ IH]; [lia|].
  destruct Hc as [-> | ->]; lia.
Qed.

(** The two subtrees below a node share no index. *)
Lemma subtrees_disjoint i j :
  0 <= i -> reachable (2 * i + 1) j -> reachable (2 * i + 2) j -> False.
Proof.
  intros Hi Hl. apply clos_rt_rtn1 in Hl.
  induction Hl as [| y z Hc Hl IH]; intros Hr.
  - apply reachable_le in Hr; lia.
  - apply clos_rt_rtn1 in Hr. destruct Hr as [| y' z' Hc' Hr].
    + apply clos_rtn1_rt, reachable_le in Hl; [|lia].
      destruct Hc as [Hc | Hc]; lia.
    + apply clos_rtn1_rt in Hr. apply IH.
      replace y with y'; [exact Hr|].
      destruct Hc as [Hc | Hc], Hc' as [Hc' | Hc']; lia.
Qed.

End Reachability.

(** ** [count_descendants] *)

Section CountDescendants.

(** The recursion returns once the depth exceeds the distance to [num], and
    what it returns is the size of the set of proper descendants. *)
Lemma count_descendants_spec fuel :
  forall i num, 0 <= i -> (Z.to_nat (num - i) < fuel)%nat ->
    exists l, descendants_of i num l /\
              count_descendants fuel i num = Some (Z.of_nat (List.length l)).
Proof.
  induction fuel as [| fuel IH]; intros i num Hi Hf; [lia|].
  cbn [count_descendants]. cbv zeta.
  assert (HL : exists l1, (2 * i + 1 < num -> descendants_of (2 * i + 1) num l1) /\
             (if 2 * i + 1 <? num
              then d <- count_descendants fuel (2 * i + 1) num ;; Some (0 + (1 + d))
              else Some 0)
             = Some (if 2 * i + 1 <? num then 1 + Z.of_nat (List.length l1) else 0)).
  { destruct (Z.ltb_spec (2 * i + 1) num) as [Hlt | Hge].
    - destruct (IH (2 * i + 1) num) as (l1 & Hd & He); [lia | lia |].
      exists l1. rewrite He. cbn. split; [auto | reflexivity].
    - exists []. split; [lia | reflexivity]. }
  destruct HL as (l1 & Hd1 & ->). cbn [obind].
  assert (HR : exists l2, (2 * i + 2 < num -> descendants_of (2 * i + 2) num l2) /\
             forall c,
             (if 2 * i + 2 <? num
              then d <- count_descendants fuel (2 * i + 2) num ;; Some (c + (1 + d))
              else Some c)
             = Some (if 2 * i + 2 <? num then c + (1 + Z.of_nat (List.length l2)) else c)).
  { destruct (Z.ltb_spec (2 * i + 2) num) as [Hlt | Hge].
    - destruct (IH (2 * i + 2) num) as (l2 & Hd & He); [lia | lia |].
      exists l2. rewrite He. cbn. split; [auto | reflexivity].
    - exists []. split; [lia | reflexivity]. }
  destruct HR as (l2 & Hd2 & ->). cbn [obind].
  exists ((if 2 * i + 1 <? num then (2 * i + 1) :: l1 else []) ++
          (if 2 * i + 2 <? num then (2 * i + 2) :: l2 else [])).
  split.
  - destruct (Z.ltb_spec (2 * i + 1) num) as [H1 | H1];
      destruct (Z.ltb_spec (2 * i + 2) num) as [H2 | H2]; try lia.
    + destruct (Hd1 H1) as [N1 M1], (Hd2 H2) as [N2 M2]. split.
      * cbn [app]. constructor.
        { rewrite in_app_iff. cbn [In]. rewrite M1, M2. intuition lia. }
        apply NoDup_app; [exact N1 | constructor; [rewrite M2; lia | exact N2] |].
        intros x Hx [<- | Hx2].
        { apply M1 in Hx. destruct Hx as [_ Hx].
          apply (subtrees_disjoint i (2 * i + 2) Hi Hx (reachable_refl _)). }
        apply M1 in Hx. apply M2 in Hx2.
        apply (subtrees_disjoint i x Hi); tauto.
      * intros j. cbn [app]. cbn [In]. rewrite in_app_iff. cbn [In]. rewrite M1, M2. split.
        { intros [<- | [[Hr Hj] | [<- | [Hr Hj]]]].
          - split; [lia | apply reachable_left, reachable_refl].
          - split; [lia | now apply reachable_left].
          - split; [lia | apply reachable_right, reachable_refl].
          - split; [lia | now apply reachable_right]. }
        intros [Hj Hr]. apply reachable_inv in Hr.
        destruct Hr as [-> | [Hr | Hr]]; [lia | |].
        { destruct (Z.eq_dec j (2 * i + 1)) as [-> | Hne]; [now left|].
          right; left. split; [|exact Hr].
          apply reachable_le in Hr; lia. }
        destruct (Z.eq_dec j (2 * i + 2)) as [-> | Hne]; [now right; right; left|].
        right; right; right. split; [|exact Hr].
        apply reachable_le in Hr; lia.
    + destruct (Hd1 H1) as [N1 M1]. split.
      * rewrite app_nil_r. constructor; [rewrite M1; lia | exact N1].
      * intros j. rewrite app_nil_r. cbn [In]. rewrite M1. split.
        { intros [<- | [Hr Hj]].
          - split; [lia | apply reachable_left, reachable_refl].
          - split; [lia | now apply reachable_left]. }
        intros [Hj Hr]. apply reachable_inv in Hr.
        destruct Hr as [-> | [Hr | Hr]]; [lia | |].
        { destruct (Z.eq_dec j (2 * i + 1)) as [-> | Hne]; [now left|].
          right. split; [|exact Hr]. apply reachable_le in Hr; lia. }
        apply reachable_le in Hr; lia.
    + split; [constructor|].
      intros j. cbn [app In]. split; [tauto|].
      intros [Hj Hr]. apply reachable_inv in Hr.
      destruct Hr as [-> | [Hr | Hr]]; [lia | |]; apply reachable_le in Hr; lia.
  - f_equal.
    destruct (2 * i + 1 <? num), (2 * i + 2 <? num);
      rewrite ?List.length_app; cbn [List.length]; rewrite ?Nat.add_0_r; lia.
Qed.

(** More depth does not change a result already reached. *)
Lemma count_descendants_fuel_mono fuel :
  forall fuel' i num k, (fuel <= fuel')%nat ->
    count_descendants fuel i num = Some k ->
    count_descendants fuel' i num = Some k.
Proof.
  induction fuel as [| fuel IH]; intros fuel' i num k Hle H; [discriminate|].
  destruct fuel' as [| fuel']; [lia|].
  cbn [count_descendants] in *. cbv zeta in *.
  destruct (2 * i + 1 <? num).
  - destruct (count_descendants fuel (2 * i + 1) num) as [d1|] eqn:E1; [|discriminate].
    rewrite (IH fuel' _ _ _ ltac:(lia) E1). cbn [obind] in *.
    destruct (2 * i + 2 <? num); [|exact H].
    destruct (count_descendants fuel (2 * i + 2) num) as [d2|] eqn:E2; [|discriminate].
    rewrite (IH fuel' _ _ _ ltac:(lia) E2). exact H.
  - cbn [obind] in *.
    destruct (2 * i + 2 <? num); [|exact H].
    destruct (count_descendants fuel (2 * i + 2) num) as [d2|] eqn:E2; [|discriminate].
    rewrite (IH fuel' _ _ _ ltac:(lia) E2). exact H.
Qed.

End CountDescendants.

(** C1. For [0 <= i < num], [count_descendants(i, num)] returns, and what it
    returns is the number of indices [j] with [i < j < num] that are reachable
    from [i] by repeated child-index derivation, that is the size of the
    subtree rooted at [i] without [i] itself. *)
Theorem count_descendants_counts_subtree (fuel : nat) (i num : Z) :
  0 <= i < num -> (Z.to_nat (num - i) < fuel)%nat ->
  exists l, descendants_of i num l /\
            count_descendants fuel i num = Some (Z.of_nat (List.length l)).
Proof.
  intros [Hi _] Hf. now apply count_descendants_spec.
Qed.

Lemma count_descendants_counts_subtree_witness :
  exists l, descendants_of 0 7 l /\
            count_descendants 8 0 7 = Some (Z.of_nat (List.length l)).
Proof.
  apply (count_descendants_counts_subtree 8 0 7); [lia | cbn; lia].
Defined.

Example count_descendants_0_7 : count_descendants 8 0 7 = Some 6.
Proof. reflexivity. Qed.

(** ** [str] and [int] *)

Section Decimal.

Lemma all_digits_string_of_uint d : all_digits (NilEmpty.string_of_uint d) = true.
Proof. induction d; cbn [NilEmpty.string_of_uint all_digits]; rewrite ?IHd; reflexivity. Qed.

Lemma is_digit_not_space c : is_digit c = true -> is_space c = false.
Proof. destruct c as [[] [] [] [] [] [] [] []]; cbv; congruence. Qed.

Lemma is_digit_not_sign c :
  is_digit c = true -> Ascii.eqb c "-" = false /\ Ascii.eqb c "+" = false.
Proof. destruct c as [[] [] [] [] [] [] [] []]; cbv; intuition congruence. Qed.

Lemma rstrip_digits s : all_digits s = true -> rstrip s = s.
Proof.
  induction s as [| c s IH]; [reflexivity|].
  cbn [all_digits rstrip]. intros H. apply andb_prop in H. destruct H as [Hc Hs].
  rewrite (IH Hs), (is_digit_not_space c Hc). now destruct s.
Qed.

Lemma lstrip_digits s : all_digits s = true -> lstrip s = s.
Proof.
  destruct s as [| c s]; [reflexivity|].
  cbn [all_digits lstrip]. intros H. apply andb_prop in H. destruct H as [Hc _].
  now rewrite (is_digit_not_space c Hc).
Qed.

Lemma drop_underscores_digits s :
  all_digits s = true ->
  drop_underscores s true = Some s /\
  (s <> EmptyString -> drop_underscores s false = Some s).
Proof.
  induction s as [| c s IH]; [now split|].
  cbn [all_digits drop_underscores]. intros H. apply andb_prop in H.
  destruct H as [Hc Hs]. rewrite Hc. destruct (IH Hs) as [-> _]. now split.
Qed.

Lemma py_digits_to_uint p :
  py_digits (NilZero.string_of_uint (Pos.to_uint p)) = Some (Z.pos p).
Proof.
  pose proof (DecimalPos.Unsigned.to_uint_nonnil p) as Hn.
  assert (Hs : NilZero.string_of_uint (Pos.to_uint p)
               = NilEmpty.string_of_uint (Pos.to_uint p))
    by (destruct (Pos.to_uint p); [congruence | reflexivity ..]).
  unfold py_digits.
  destruct (drop_underscores_digits (NilEmpty.string_of_uint (Pos.to_uint p))
              (all_digits_string_of_uint _)) as [_ Hd].
  rewrite Hs, Hd; [|destruct (Pos.to_uint p); [congruence | discriminate ..]].
  cbn [obind]. rewrite <- Hs, NilZero.usu by exact Hn.
  cbn [option_map]. unfold Z.of_uint. now rewrite DecimalPos.Unsigned.of_to.
Qed.

(** Reading back what [str] printed gives the integer itself. *)
Lemma py_int_of_str_str z : py_int_of_str (str z) = Some z.
Proof.
  destruct z as [| p | p]; [reflexivity | |].
  - unfold str, py_int_of_str. cbn [Z.to_int NilZero.string_of_int].
    pose proof (py_digits_to_uint p) as Hp.
    pose proof (DecimalPos.Unsigned.to_uint_nonnil p) as Hn.
    assert (Hs : NilZero.string_of_uint (Pos.to_uint p)
                 = NilEmpty.string_of_uint (Pos.to_uint p))
      by (destruct (Pos.to_uint p); [congruence | reflexivity ..]).
    pose proof (all_digits_string_of_uint (Pos.to_uint p)) as Ha.
    rewrite <- Hs in Ha. rewrite (lstrip_digits _ Ha), (rstrip_digits _ Ha).
    destruct (NilZero.string_of_uint (Pos.to_uint p)) as [| c rest] eqn:E.
    + destruct (Pos.to_uint p); discriminate.
    + cbn [all_digits] in Ha. apply andb_prop in Ha. destruct Ha as [Hc _].
      destruct (is_digit_not_sign c Hc) as [-> ->]. exact Hp.
  - unfold str, py_int_of_str. cbn [Z.to_int NilZero.string_of_int].
    pose proof (py_digits_to_uint p) as Hp.
    assert (Hs : NilZero.string_of_uint (Pos.to_uint p)
                 = NilEmpty.string_of_uint (Pos.to_uint p))
      by (pose proof (DecimalPos.Unsigned.to_uint_nonnil p);
          destruct (Pos.to_uint p); [congruence | reflexivity ..]).
    pose proof (all_digits_string_of_uint (Pos.to_uint p)) as Ha.
    rewrite <- Hs in Ha.
    assert (Hne : NilZero.string_of_uint (Pos.to_uint p) <> EmptyString)
      by (destruct (Pos.to_uint p); discriminate).
    cbn [lstrip]. change (is_space "-") with false. cbv iota.
    cbn [rstrip]. rewrite (rstrip_digits _ Ha).
    destruct (NilZero.string_of_uint (Pos.to_uint p)) as [| c rest] eqn:E;
      [congruence|].
    change (Ascii.eqb "-" "-") with true. cbv iota.
    rewrite Hp. reflexivity.
Qed.

Lemma str_inj a b : str a = str b -> a = b.
Proof.
  intros H. apply (f_equal py_int_of_str) in H.
  rewrite !py_int_of_str_str in H. congruence.
Qed.

End Decimal.

(** ** The expansion store *)

Section Expansion.

Lemma mem_In i l : mem i l = true <-> In i l.
Proof.
  unfold mem. rewrite existsb_exists. split.
  - intros (x & Hx & He). apply Z.eqb_eq in He. now subst.
  - intros H. exists i. split; [exact H | apply Z.eqb_refl].
Qed.

Lemma mem_false i l : mem i l = false <-> ~ In i l.
Proof.
  rewrite <- mem_In. destruct (mem i l); split; congruence.
Qed.

(** What a click on the node drawn for [i] does to the store. *)
Lemma expand_node_tap (num_nodes : pyval) (E : option (list Z)) (i : Z) (lbl : string) :
  expand_node (tap_on i lbl) E num_nodes =
  if 2 * i + 1 >=? node_count num_nodes then PreventUpdate
  else Updated (if negb (mem i (expanded_set E))
                then expanded_set E ++ [i] else expanded_set E).
Proof.
  unfold expand_node, tap_on. cbn [id]. rewrite py_int_of_str_str.
  destruct E; reflexivity.
Qed.

(** Whatever is clicked, the handler keeps every node already expanded. *)
Lemma expand_node_never_shrinks (tapData : option node_data) (E : option (list Z))
                                (num_nodes : pyval) :
  incl (expanded_set E) (expanded_set (store_after E (expand_node tapData E num_nodes))).
Proof.
  unfold expand_node. destruct tapData as [tap|]; [|apply incl_refl].
  destruct (py_int_of_str (id tap)) as [node_id|]; [|apply incl_refl].
  destruct (2 * node_id + 1 >=? node_count num_nodes); [apply incl_refl|].
  cbn [store_after expanded_set]. fold (expanded_set E).
  destruct (negb (mem node_id (expanded_set E)));
    [apply incl_appl, incl_refl | apply incl_refl].
Qed.

End Expansion.

(** C2. A click on node [i] never removes a node from the expanded set; it
    leaves the store as it is when [i] is already in the set or is a leaf
    ([2*i+1 >= num]), and otherwise adds exactly [i]. *)
Theorem expand_node_ratchet (num_nodes : pyval) (E : option (list Z)) (i : Z)
                            (lbl : string) :
  (forall tapData,
     incl (expanded_set E)
          (expanded_set (store_after E (expand_node tapData E num_nodes)))) /\
  (In i (expanded_set E) \/ 2 * i + 1 >= node_count num_nodes ->
   store_after E (expand_node (tap_on i lbl) E num_nodes) = E) /\
  (~ In i (expanded_set E) /\ 2 * i + 1 < node_count num_nodes ->
   store_after E (expand_node (tap_on i lbl) E num_nodes)
   = Some (expanded_set E ++ [i]) /\
   forall x, In x (expanded_set (store_after E (expand_node (tap_on i lbl) E num_nodes)))
             <-> In x (expanded_set E) \/ x = i).
Proof.
  split; [intros tapData; apply expand_node_never_shrinks|].
  rewrite expand_node_tap.
  destruct (Z.geb_spec (2 * i + 1) (node_count num_nodes)) as [Hleaf | Hinner].
  - cbn [store_after]. split; [reflexivity|].
    intros [_ H]. lia.
  - cbn [store_after expanded_set].
    destruct (mem i (expanded_set E)) eqn:Hm; cbn [negb].
    + apply mem_In in Hm. split.
      * intros _. destruct E; [reflexivity | destruct Hm].
      * intros [H _]. contradiction.
    + apply mem_false in Hm. split.
      * intros [H | H]; [contradiction | lia].
      * intros _. split; [reflexivity|].
        intros x. rewrite in_app_iff. cbn [In]. intuition.
Qed.

Lemma expand_node_ratchet_witness :
  store_after (Some [0]) (expand_node (tap_on 1 "Node 1 [+2]") (Some [0]) (PyInt 7))
  = Some (expanded_set (Some [0]) ++ [1]) /\
  store_after (Some [0]) (expand_node (tap_on 3 "Node 3") (Some [0]) (PyInt 7))
  = Some [0].
Proof.
  split.
  - apply (proj2 (proj2 (expand_node_ratchet (PyInt 7) (Some [0]) 1 "Node 1 [+2]"))).
    split; [cbn; intros [H | []]; discriminate H | cbn; lia].
  - apply (proj1 (proj2 (expand_node_ratchet (PyInt 7) (Some [0]) 3 "Node 3"))).
    right. cbn. lia.
Defined.

(** ** The process runner *)

Section Runner.

Lemma append_assoc (a b c : string) : ((a ++ b) ++ c = a ++ (b ++ c))%string.
Proof. induction a as [| x a IH]; cbn; [reflexivity | now rewrite IH]. Qed.

Lemma append_nil_r (a : string) : (a ++ EmptyString = a)%string.
Proof. induction a as [| x a IH]; cbn; [reflexivity | now rewrite IH]. Qed.

(** The read loop copies every line it is given before the stream ends or
    fails. *)
Lemma read_stdout_lines (lines : list string) (rest : list (outcome string))
                        (logs : string) :
  Forall (fun l => l <> EmptyString) lines ->
  read_stdout (map Return lines ++ rest) logs
  = read_stdout rest (logs ++ join lines)%string.
Proof.
  intros H. revert logs. induction H as [| l lines Hl _ IH]; intros logs.
  - cbn. now rewrite append_nil_r.
  - cbn [map app read_stdout join fold_right].
    apply String.eqb_neq in Hl. rewrite Hl.
    unfold bind at 1. unfold log_append at 1.
    rewrite IH. now rewrite append_assoc.
Qed.

Lemma success_line_not_failure c : success_line <> failure_line c.
Proof. unfold success_line, failure_line. cbn. discriminate. Qed.

Lemma success_line_not_error e : success_line <> error_line e.
Proof. unfold success_line, error_line. cbn. discriminate. Qed.

Lemma failure_line_not_error c e : failure_line c <> error_line e.
Proof. unfold failure_line, error_line. cbn. discriminate. Qed.

End Runner.

(** C3, as the code has it.  A run appends the start marker, then the stdout
    lines read in order up to the end of the stream or the first error, then
    the drained stderr text when draining is reached, then exactly one final
    line: the success line when no error was raised and the exit code is 0,
    the failure line with the code when no error was raised and the code is
    not 0, and the error line when spawning or reading raised.  The three
    final lines are pairwise different texts. *)
Theorem run_benchmark_log (popen : params -> outcome process) (p : params)
                          (logs : string) :
  (forall e, popen p = Raise e ->
     run_benchmark popen p logs
     = (Return tt, logs ++ start_marker ++ error_line e)%string) /\
  (forall proc lines e rest,
     popen p = Return proc ->
     Forall (fun l => l <> EmptyString) lines ->
     stdout_readline proc = map Return lines ++ Raise e :: rest ->
     run_benchmark popen p logs
     = (Return tt, logs ++ start_marker ++ join lines ++ error_line e)%string) /\
  (forall proc lines e,
     popen p = Return proc ->
     Forall (fun l => l <> EmptyString) lines ->
     stdout_readline proc = map Return lines ->
     stderr_read proc = Raise e ->
     run_benchmark popen p logs
     = (Return tt, logs ++ start_marker ++ join lines ++ error_line e)%string) /\
  (forall proc lines stderr,
     popen p = Return proc ->
     Forall (fun l => l <> EmptyString) lines ->
     stdout_readline proc = map Return lines ->
     stderr_read proc = Return stderr ->
     run_benchmark popen p logs
     = (Return tt,
        logs ++ start_marker ++ join lines ++ stderr ++
        (if (wait proc =? 0)%Z then success_line else failure_line (wait proc)))%string) /\
  (forall c e, success_line <> failure_line c /\ success_line <> error_line e /\
               failure_line c <> error_line e).
Proof.
  repeat split.
  - intros e He. unfold run_benchmark, try_except, bind, perform, log_append.
    rewrite He. now rewrite append_assoc.
  - intros proc lines e rest Hp Hl Hs.
    unfold run_benchmark, try_except. unfold bind at 1. unfold log_append at 1.
    unfold bind at 1. unfold perform at 1. rewrite Hp.
    unfold bind at 1. rewrite Hs, read_stdout_lines by exact Hl.
    cbn [read_stdout]. unfold raise, log_append.
    now rewrite !append_assoc.
  - intros proc lines e Hp Hl Hs He.
    unfold run_benchmark, try_except. unfold bind at 1. unfold log_append at 1.
    unfold bind at 1. unfold perform at 1. rewrite Hp.
    unfold bind at 1. rewrite Hs, <- (app_nil_r (map Return lines)).
    rewrite read_stdout_lines by exact Hl.
    cbn [read_stdout]. unfold ret. unfold bind at 1. unfold perform at 1.
    rewrite He. unfold log_append. now rewrite !append_assoc.
  - intros proc lines stderr Hp Hl Hs He.
    unfold run_benchmark, try_except. unfold bind at 1. unfold log_append at 1.
    unfold bind at 1. unfold perform at 1. rewrite Hp.
    unfold bind at 1. rewrite Hs, <- (app_nil_r (map Return lines)).
    rewrite read_stdout_lines by exact Hl.
    cbn [read_stdout]. unfold ret. unfold bind at 1. unfold perform at 1.
    rewrite He. unfold bind at 1.
    destruct (String.eqb_spec stderr EmptyString) as [-> | Hne]; cbn [negb].
    + unfold log_append. rewrite !append_assoc. reflexivity.
    + unfold log_append. rewrite !append_assoc. reflexivity.
  - apply success_line_not_failure.
  - apply success_line_not_error.
  - apply failure_line_not_error.
Qed.

(** ** The lazy view *)

Section LazyView.

Variable num : Z.
Variable expanded : list Z.

Lemma shown_below_range i j : 0 <= i -> shown_below num expanded i j -> i <= j < num.
Proof.
  intros Hi (Hj & Hr & _). split; [now apply reachable_le | exact Hj].
Qed.

Lemma shown_below_self i : 0 <= i -> i < num -> shown_below num expanded i i.
Proof.
  intros Hi Hn. split; [exact Hn|]. split; [apply reachable_refl|].
  intros a Ha Hne Hb. apply reachable_le in Ha; [|exact Hi].
  apply reachable_le in Hb; lia.
Qed.

Lemma shown_below_left i j :
  0 <= i -> In i expanded ->
  shown_below num expanded (2 * i + 1) j -> shown_below num expanded i j.
Proof.
  intros Hi He (Hj & Hr & Ha). split; [exact Hj|].
  split; [now apply reachable_left|].
  intros a Hia Hne Haj. apply reachable_inv in Hia.
  destruct Hia as [-> | [Hia | Hia]]; [exact He | now apply Ha |].
  exfalso. apply (subtrees_disjoint i j Hi Hr).
  eapply reachable_trans; eassumption.
Qed.

Lemma shown_below_right i j :
  0 <= i -> In i expanded ->
  shown_below num expanded (2 * i + 2) j -> shown_below num expanded i j.
Proof.
  intros Hi He (Hj & Hr & Ha). split; [exact Hj|].
  split; [now apply reachable_right|].
  intros a Hia Hne Haj. apply reachable_inv in Hia.
  destruct Hia as [-> | [Hia | Hia]]; [exact He | | now apply Ha].
  exfalso. apply (subtrees_disjoint i j Hi); [|exact Hr].
  eapply reachable_trans; eassumption.
Qed.

Lemma shown_below_inv i j :
  0 <= i -> shown_below num expanded i j ->
  j = i \/ (In i expanded /\
            (shown_below num expanded (2 * i + 1) j \/
             shown_below num expanded (2 * i + 2) j)).
Proof.
  intros Hi (Hj & Hr & Ha).
  destruct (Z.eq_dec j i) as [-> | Hne]; [now left | right].
  split; [apply Ha; [apply reachable_refl | congruence | exact Hr]|].
  apply reachable_inv in Hr. destruct Hr as [-> | [Hr | Hr]]; [congruence | left | right].
  - split; [exact Hj|]. split; [exact Hr|].
    intros a Hla. apply Ha. now apply reachable_left.
  - split; [exact Hj|]. split; [exact Hr|].
    intros a Hra. apply Ha. now apply reachable_right.
Qed.

Lemma node_ids_app a b : node_ids (a ++ b) = node_ids a ++ node_ids b.
Proof. apply flat_map_app. Qed.

Lemma edges_of_app a b : edges_of (a ++ b) = edges_of a ++ edges_of b.
Proof. apply flat_map_app. Qed.

End LazyView.

Section AddNode.
Variable num : Z.
Variable expanded : list Z.

Lemma add_node_spec fuel :
  forall i, 0 <= i -> (Z.to_nat (num - i) + 2 <= fuel)%nat ->
  exists out ids,
    (forall els, add_node fuel num expanded i els = Some (els ++ out)) /\
    node_ids out = map str ids /\
    (forall j, In j ids <-> shown_below num expanded i j) /\
    Forall (tree_edge num) (edges_of out).
Proof.
  induction fuel as [| fuel IH]; intros i Hi Hf; [lia|].
  cbn [add_node]. cbv zeta.
  destruct (Z.leb_spec num i) as [Hge | Hlt].
  - exists [], []. split; [intros els; now rewrite app_nil_r|].
    split; [reflexivity|]. split; [|constructor].
    intros j. split; [intros [] | intros H].
    apply shown_below_range in H; [lia | exact Hi].
  - assert (Hlab : exists lab,
               (if (2 * i + 1 <? num) && negb (mem i expanded)
                then descendant_count <- count_descendants fuel i num ;;
                     Some ("Node " ++ str i ++ " [+" ++ str descendant_count ++ "]")%string
                else Some ("Node " ++ str i)%string) = Some lab).
    { destruct ((2 * i + 1 <? num) && negb (mem i expanded)); [|eauto].
      destruct (count_descendants_spec fuel i num Hi) as (l & _ & ->); [lia|].
      cbn [obind]. eauto. }
    destruct Hlab as (lab & ->). cbn [obind].
    destruct (mem i expanded) eqn:Hm.
    + apply mem_In in Hm.
      assert (Hsub : forall c, c = 2 * i + 1 \/ c = 2 * i + 2 ->
                exists out ids,
                  (forall els0,
                     (if c <? num
                      then elements <- add_node fuel num expanded c els0 ;;
                           Some (elements ++ [Edge (mk_edge (str i) (str c) 100)])
                      else Some els0) = Some (els0 ++ out)) /\
                  node_ids out = map str ids /\
                  (forall j, In j ids <-> shown_below num expanded c j) /\
                  Forall (tree_edge num) (edges_of out)).
      { intros c Hc. destruct (Z.ltb_spec c num) as [Hcn | Hcn].
        - destruct (IH c) as (out & ids & Ho & Hn & Hj & He); [lia | lia |].
          exists (out ++ [Edge (mk_edge (str i) (str c) 100)]), ids.
          split; [intros els0; rewrite Ho; cbn [obind]; now rewrite app_assoc|].
          split; [rewrite node_ids_app, Hn; cbn; now rewrite app_nil_r|].
          split; [exact Hj|].
          rewrite edges_of_app. apply Forall_app. split; [exact He|].
          cbn. constructor; [|constructor].
          exists i. cbn [source target bandwidth]. split; [exact Hi|]. split; [reflexivity|].
          split; [reflexivity|].
          destruct Hc as [-> | ->]; [left | right]; split; (reflexivity || lia).
        - exists [], []. split; [intros els0; now rewrite app_nil_r|].
          split; [reflexivity|]. split; [|constructor].
          intros j. split; [intros [] | intros H].
          apply shown_below_range in H; lia. }
      destruct (Hsub (2 * i + 1)) as (outl & idsl & Hol & Hnl & Hjl & Hel); [now left|].
      destruct (Hsub (2 * i + 2)) as (outr & idsr & Hor & Hnr & Hjr & Her); [now right|].
      exists (Node (mk_node (str i) lab "2.5 GHz" "8GB") :: outl ++ outr), (i :: idsl ++ idsr).
      split.
      { intros els. rewrite Hol. cbn [obind]. rewrite Hor. cbn [obind].
        f_equal. rewrite <- !app_assoc. reflexivity. }
      split.
      { cbn. rewrite node_ids_app, Hnl, Hnr, map_app. reflexivity. }
      split.
      { intros j. cbn [In]. rewrite in_app_iff, Hjl, Hjr. split.
        - intros [<- | [H | H]].
          + now apply shown_below_self.
          + now apply shown_below_left.
          + now apply shown_below_right.
        - intros H. apply shown_below_inv in H; [|exact Hi].
          destruct H as [-> | [_ [H | H]]]; auto. }
      cbn. rewrite edges_of_app. apply Forall_app. now split.
    + apply mem_false in Hm.
      exists [Node (mk_node (str i) lab "2.5 GHz" "8GB")], [i].
      split; [reflexivity|]. split; [reflexivity|]. split; [|constructor].
      intros j. cbn [In]. split.
      * intros [<- | []]. now apply shown_below_self.
      * intros H. apply shown_below_inv in H; [|exact Hi].
        destruct H as [-> | [H _]]; [now left | contradiction].
Qed.
End AddNode.

(** ** The whole view *)

Section View.

Lemma reachable_from_root_bounded (n : nat) :
  forall j, 0 <= j -> (Z.to_nat j < n)%nat -> reachable 0 j.
Proof.
  induction n as [| n IH]; intros j Hj Hn; [lia|].
  destruct (Z.eq_dec j 0) as [-> | Hne]; [apply reachable_refl|].
  assert (Hp : reachable 0 ((j - 1) / 2)).
  { apply IH; [apply Z.div_pos; lia|].
    assert ((j - 1) / 2 < j) by (apply Z.div_lt_upper_bound; lia). lia. }
  pose proof (Z.div_mod (j - 1) 2 ltac:(lia)) as Hd.
  pose proof (Z.mod_pos_bound (j - 1) 2 ltac:(lia)) as Hm.
  eapply reachable_trans; [exact Hp|]. apply rt_step.
  unfold child. lia.
Qed.

Lemma reachable_from_root j : 0 <= j -> reachable 0 j.
Proof.
  intros Hj. apply (reachable_from_root_bounded (S (Z.to_nat j))); [exact Hj | lia].
Qed.

Lemma shown_below_root num expanded j :
  shown_below num expanded 0 j <-> visible num expanded j.
Proof.
  split.
  - intros (Hn & Hr & Ha). split; [apply reachable_le in Hr; lia|].
    intros a H0 Hne Haj. apply Ha; [now apply reachable_from_root | exact Hne | exact Haj].
  - intros ([H0 Hn] & Ha). split; [exact Hn|].
    split; [now apply reachable_from_root|].
    intros a Hra Hne Haj. apply Ha; [|exact Hne | exact Haj].
    apply reachable_le in Hra; lia.
Qed.

Lemma In_map_str j ids : In (str j) (map str ids) <-> In j ids.
Proof.
  rewrite in_map_iff. split.
  - intros (x & Hx & Hin). apply str_inj in Hx. now subst.
  - intros H. now exists j.
Qed.

(** With depth to spare, [build_tree_elements] returns, draws exactly the
    visible nodes and only edges of the tree. *)
Lemma build_tree_elements_spec fuel num expanded :
  (Z.to_nat num + 2 <= fuel)%nat ->
  exists els,
    build_tree_elements fuel num expanded = Some els /\
    (forall j, In (str j) (node_ids els) <-> visible num expanded j) /\
    Forall (tree_edge num) (edges_of els).
Proof.
  intros Hf.
  destruct (add_node_spec num expanded fuel 0) as (out & ids & Ho & Hn & Hj & He);
    [lia | rewrite Z.sub_0_r; exact Hf |].
  exists out. unfold build_tree_elements. rewrite Ho. split; [reflexivity|].
  split; [|exact He].
  intros j. now rewrite Hn, In_map_str, Hj, shown_below_root.
Qed.

End View.

(** C4, as the code has it.  The lazily built view contains a node with id
    [i] exactly when [0 <= i < num] and every proper ancestor of [i] is in the
    expanded set; in particular every node it contains has [i < num]. *)
Theorem rendered_nodes_are_the_visible_ones (fuel : nat) (num : Z) (expanded : list Z) :
  (Z.to_nat num + 2 <= fuel)%nat ->
  exists els,
    build_tree_elements fuel num expanded = Some els /\
    forall i, In (str i) (node_ids els) <-> visible num expanded i.
Proof.
  intros Hf.
  destruct (build_tree_elements_spec fuel num expanded Hf) as (els & He & Hn & _).
  exists els. now split.
Qed.

Lemma rendered_nodes_are_the_visible_ones_witness :
  exists els,
    build_tree_elements 9 7 [0] = Some els /\
    forall i, In (str i) (node_ids els) <-> visible 7 [0] i.
Proof.
  apply (rendered_nodes_are_the_visible_ones 9 7 [0]). cbn. lia.
Defined.

(** C4 as stated fails: with seven nodes and nothing expanded, index 1 is
    below the node count and yet the view has no node with id 1. *)
Lemma collapsed_root_hides_node_1 :
  exists els,
    build_tree_elements 9 7 [] = Some els /\ 1 < 7 /\ ~ In (str 1) (node_ids els).
Proof.
  eexists. split; [vm_compute; reflexivity|]. split; [lia|].
  cbn. intros [H | []]. discriminate H.
Qed.

(** C5. With seven nodes and nothing expanded the view is the single node
    "Node 0 [+6]"; with node 0 expanded it is the nodes 0, 1 and 2, labelled
    "Node 0", "Node 1 [+2]" and "Node 2 [+2]", and the two edges from 0. *)
Theorem seven_nodes_example (depth : nat) (topology_type : pyval) :
  build_tree_elements (8 + depth) 7 []
  = Some [Node (mk_node "0" "Node 0 [+6]" "2.5 GHz" "8GB")] /\
  build_tree_elements (8 + depth) 7 [0]
  = Some [Node (mk_node "0" "Node 0" "2.5 GHz" "8GB");
          Node (mk_node "1" "Node 1 [+2]" "2.5 GHz" "8GB");
          Edge (mk_edge "0" "1" 100);
          Node (mk_node "2" "Node 2 [+2]" "2.5 GHz" "8GB");
          Edge (mk_edge "0" "2" 100)] /\
  update_network_topology (8 + depth) (PyInt 7) topology_type (Some [])
  = build_tree_elements (8 + depth) 7 [] /\
  update_network_topology (8 + depth) (PyInt 7) topology_type (Some [0])
  = build_tree_elements (8 + depth) 7 [0].
Proof.
  repeat split; vm_compute; reflexivity.
Qed.

(** ** Small trees and the node-count input *)

Section SmallTrees.

Lemma range_nonpos n : n <= 0 -> range n = [].
Proof.
  intros H. unfold range. now replace (Z.to_nat n) with 0%nat by lia.
Qed.

Lemma small_count_cases n : n <= 3 -> n <= 0 \/ n = 1 \/ n = 2 \/ n = 3.
Proof. lia. Qed.

(** The flat path returns whatever the depth and the expanded set are. *)
Lemma update_network_topology_flat fuel fuel' v topo topo' exp exp' :
  node_count v <= 3 ->
  update_network_topology fuel v topo exp
  = update_network_topology fuel' v topo' exp'.
Proof.
  intros H. unfold update_network_topology.
  apply Z.leb_le in H. now rewrite H.
Qed.


End SmallTrees.

(** C6. For a node count of 3 or less the view does not depend on the
    expanded set: it is the nodes "Node 0" .. "Node num-1", without a "[+k]"
    suffix, followed by the edges from a node to each of its children below
    [num], and by nothing else. *)
Theorem flat_view_of_small_trees (fuel : nat) (num_nodes topology_type : pyval)
                                 (expanded : option (list Z)) :
  node_count num_nodes <= 3 ->
  exists edges,
    update_network_topology fuel num_nodes topology_type expanded
    = Some (map (fun i => Node (mk_node (str i) ("Node " ++ str i) "2.5 GHz" "8GB"))
                (range (node_count num_nodes))
            ++ map Edge edges) /\
    List.length (range (node_count num_nodes)) = Z.to_nat (node_count num_nodes) /\
    (forall i, In i (range (node_count num_nodes)) <-> 0 <= i < node_count num_nodes) /\
    (forall e, In e edges <->
               exists i c, 0 <= i /\ (c = 2 * i + 1 \/ c = 2 * i + 2) /\
                           c < node_count num_nodes /\
                           e = mk_edge (str i) (str c) 100) /\
    (forall expanded',
       update_network_topology fuel num_nodes topology_type expanded'
       = update_network_topology fuel num_nodes topology_type expanded).
Proof.
  intros Hn.
  assert (Hind : forall expanded',
             update_network_topology fuel num_nodes topology_type expanded'
             = update_network_topology fuel num_nodes topology_type expanded)
    by (intros; now apply update_network_topology_flat).
  assert (Hlen : List.length (range (node_count num_nodes))
                 = Z.to_nat (node_count num_nodes))
    by (unfold range; now rewrite length_map, length_seq).
  assert (Hrange : forall i, In i (range (node_count num_nodes))
                             <-> 0 <= i < node_count num_nodes).
  { intros i. unfold range. rewrite in_map_iff. split.
    - intros (k & <- & Hk). apply in_seq in Hk. lia.
    - intros Hi. exists (Z.to_nat i). split; [lia | apply in_seq; lia]. }
  remember (node_count num_nodes) as n eqn:En.
  assert (Hflat : forall els,
             (if n <=? 3 then Some els
              else build_tree_elements fuel n (expanded_set expanded)) = Some els)
    by (intros; now replace (n <=? 3) with true by (symmetry; apply Z.leb_le; lia)).
  destruct (small_count_cases n Hn) as [H0 | [E | [E | E]]].
  - exists [].
    split; [unfold update_network_topology; rewrite <- En, range_nonpos by exact H0;
            apply Hflat|].
    split; [exact Hlen|]. split; [exact Hrange|]. split; [|exact Hind].
    intros e. split; [intros [] | intros (i & c & Hi & Hc & Hlt & _); lia].
  - exists [].
    split; [unfold update_network_topology; rewrite <- En, E; vm_compute; reflexivity|].
    split; [exact Hlen|]. split; [exact Hrange|]. split; [|exact Hind].
    intros e. split; [intros [] | intros (i & c & Hi & Hc & Hlt & _); lia].
  - exists [mk_edge (str 0) (str 1) 100].
    split; [unfold update_network_topology; rewrite <- En, E; vm_compute; reflexivity|].
    split; [exact Hlen|]. split; [exact Hrange|]. split; [|exact Hind].
    intros e. split.
    + intros [<- | []]. exists 0, 1. repeat split; lia.
    + intros (i & c & Hi & Hc & Hlt & ->).
      assert (i = 0) by lia. subst i. assert (c = 1) by lia. subst c. now left.
  - exists [mk_edge (str 0) (str 1) 100; mk_edge (str 0) (str 2) 100].
    split; [unfold update_network_topology; rewrite <- En, E; vm_compute; reflexivity|].
    split; [exact Hlen|]. split; [exact Hrange|]. split; [|exact Hind].
    intros e. split.
    + intros [<- | [<- | []]]; [exists 0, 1 | exists 0, 2]; repeat split; lia.
    + intros (i & c & Hi & Hc & Hlt & ->).
      assert (i = 0) by lia. subst i.
      destruct Hc as [-> | ->]; [now left | now right; left].
Qed.

Lemma flat_view_of_small_trees_witness :
  exists edges,
    update_network_topology 0 (PyInt 3) PyNone (Some [0; 1])
    = Some (map (fun i => Node (mk_node (str i) ("Node " ++ str i) "2.5 GHz" "8GB"))
                (range (node_count (PyInt 3)))
            ++ map Edge edges) /\
    List.length (range (node_count (PyInt 3))) = Z.to_nat (node_count (PyInt 3)) /\
    (forall i, In i (range (node_count (PyInt 3))) <-> 0 <= i < node_count (PyInt 3)) /\
    (forall e, In e edges <->
               exists i c, 0 <= i /\ (c = 2 * i + 1 \/ c = 2 * i + 2) /\
                           c < node_count (PyInt 3) /\
                           e = mk_edge (str i) (str c) 100) /\
    (forall expanded',
       update_network_topology 0 (PyInt 3) PyNone expanded'
       = update_network_topology 0 (PyInt 3) PyNone (Some [0; 1])).
Proof.
  apply (flat_view_of_small_trees 0 (PyInt 3) PyNone (Some [0; 1])). cbn. lia.
Defined.

(** C7. For a node count [num >= 0] every edge of the view, on the flat path
    and on the lazy one, goes from a node [i] to [2*i+1] or [2*i+2] with both
    ends below [num]; for [num <= 3] the view has exactly [num] nodes. *)
Theorem view_is_tree_consistent (fuel : nat) (num_nodes topology_type : pyval)
                                (expanded : option (list Z)) :
  0 <= node_count num_nodes ->
  (Z.to_nat (node_count num_nodes) + 2 <= fuel)%nat ->
  exists els,
    update_network_topology fuel num_nodes topology_type expanded = Some els /\
    Forall (tree_edge (node_count num_nodes)) (edges_of els) /\
    (node_count num_nodes <= 3 ->
     Z.of_nat (List.length (node_ids els)) = node_count num_nodes).
Proof.
  intros H0 Hf. unfold update_network_topology.
  remember (node_count num_nodes) as n eqn:En. clear En.
  destruct (Z.leb_spec n 3) as [Hle | Hgt].
  - assert (Hc : n = 0 \/ n = 1 \/ n = 2 \/ n = 3) by lia.
    destruct Hc as [-> | [-> | [-> | ->]]]; eexists;
      (split; [vm_compute; reflexivity|]);
      (split; [|intros _; reflexivity]);
      repeat constructor; exists 0; cbn [source target bandwidth];
      repeat split; try reflexivity; try lia;
      ((left; split; [reflexivity | lia]) || (right; split; [reflexivity | lia])).
  - destruct (build_tree_elements_spec fuel n (match expanded with
                                               | None => []
                                               | Some l => l
                                               end) Hf)
      as (els & He & _ & Hedges).
    exists els. split; [exact He|]. split; [exact Hedges | lia].
Qed.

Lemma view_is_tree_consistent_witness :
  exists els,
    update_network_topology 9 (PyInt 7) PyNone (Some [0; 2]) = Some els /\
    Forall (tree_edge (node_count (PyInt 7))) (edges_of els) /\
    (node_count (PyInt 7) <= 3 ->
     Z.of_nat (List.length (node_ids els)) = node_count (PyInt 7)).
Proof.
  apply (view_is_tree_consistent 9 (PyInt 7) PyNone (Some [0; 2])); cbn; lia.
Defined.





(** ** Starting a run *)

Section Start.

Lemma forallb_truthy_false (fields : list pyval) (v : pyval) :
  In v fields -> truthy v = false -> forallb truthy fields = false.
Proof.
  intros Hin Hv. destruct (forallb truthy fields) eqn:E; [|reflexivity].
  rewrite forallb_forall in E. rewrite (E v Hin) in Hv. discriminate.
Qed.

(** A falsy field refuses the run: one message, no runner thread. *)
Lemma start_experiment_refused n_clicks data_set query hardware_heterogeneity
                               network_topology num_of_nodes v logs :
  truthy n_clicks = true ->
  In v [data_set; query; hardware_heterogeneity; network_topology; num_of_nodes] ->
  truthy v = false ->
  start_experiment n_clicks data_set query hardware_heterogeneity
                   network_topology num_of_nodes logs
  = (Return (mk_start 0 None), (logs ++ required_message)%string).
Proof.
  intros Hn Hin Hv. unfold start_experiment. rewrite Hn.
  rewrite (forallb_truthy_false _ v Hin Hv). reflexivity.
Qed.

End Start.

(** C9. A start request with one of the five fields missing appends the one
    message that all fields are required and starts no runner thread, hence
    spawns no process. *)
Theorem start_experiment_missing_field
    (n_clicks data_set query hardware_heterogeneity network_topology
     num_of_nodes : pyval) (logs : string) :
  truthy n_clicks = true ->
  data_set = PyNone \/ query = PyNone \/ hardware_heterogeneity = PyNone \/
  network_topology = PyNone \/ num_of_nodes = PyNone ->
  start_experiment n_clicks data_set query hardware_heterogeneity
                   network_topology num_of_nodes logs
  = (Return (mk_start 0 None), (logs ++ required_message)%string).
Proof.
  intros Hn Hm. apply (start_experiment_refused _ _ _ _ _ _ PyNone);
    [exact Hn | | reflexivity].
  cbn [In]. intuition.
Qed.

Lemma start_experiment_missing_field_witness :
  start_experiment (PyInt 1) (PyStr "nexmark") PyNone (PyStr "homogeneous")
                   (PyStr "tree") (PyInt 7) "log"
  = (Return (mk_start 0 None), ("log" ++ required_message)%string).
Proof.
  apply (start_experiment_missing_field (PyInt 1) (PyStr "nexmark") PyNone
           (PyStr "homogeneous") (PyStr "tree") (PyInt 7) "log").
  - reflexivity.
  - right; left; reflexivity.
Defined.

(** C10. The test for a missing field is the truth value of the field: a
    node count of 0, or an empty text, is refused like an absent field, with
    the same message and without a runner thread, although the graph callback
    reads the same 0 as a node count. *)
Theorem start_experiment_rejects_falsy
    (n_clicks data_set query hardware_heterogeneity network_topology
     num_of_nodes : pyval) (logs : string) :
  truthy n_clicks = true ->
  num_of_nodes = PyInt 0 \/ data_set = PyStr "" \/ query = PyStr "" \/
  hardware_heterogeneity = PyStr "" \/ network_topology = PyStr "" ->
  start_experiment n_clicks data_set query hardware_heterogeneity
                   network_topology num_of_nodes logs
  = (Return (mk_start 0 None), (logs ++ required_message)%string) /\
  (num_of_nodes = PyInt 0 ->
   num_of_nodes <> PyNone /\ node_count num_of_nodes = 0).
Proof.
  intros Hn Hf. split.
  - destruct Hf as [H | [H | [H | [H | H]]]]; subst;
      match goal with
      | |- context [PyInt 0] =>
          apply (start_experiment_refused _ _ _ _ _ _ (PyInt 0))
      | |- _ => apply (start_experiment_refused _ _ _ _ _ _ (PyStr ""))
      end; try exact Hn; try reflexivity; cbn [In]; intuition.
  - intros ->. split; [discriminate | reflexivity].
Qed.

Lemma start_experiment_rejects_falsy_witness :
  start_experiment (PyInt 1) (PyStr "nexmark") (PyStr "q1") (PyStr "homogeneous")
                   (PyStr "tree") (PyInt 0) "log"
  = (Return (mk_start 0 None), ("log" ++ required_message)%string) /\
  (PyInt 0 = PyInt 0 -> PyInt 0 <> PyNone /\ node_count (PyInt 0) = 0).
Proof.
  apply (start_experiment_rejects_falsy (PyInt 1) (PyStr "nexmark") (PyStr "q1")
           (PyStr "homogeneous") (PyStr "tree") (PyInt 0) "log").
  - reflexivity.
  - left; reflexivity.
Defined.

(** With all five fields truthy the request goes through: a separator line
    and a runner thread on the packed parameters. *)
Example start_experiment_accepts :
  start_experiment (PyInt 1) (PyStr "nexmark") (PyStr "q1") (PyStr "homogeneous")
                   (PyStr "tree") (PyInt 7) "log"
  = (Return (mk_start 0 (Some (mk_params (PyStr "nexmark") (PyStr "q1")
                                         (PyStr "homogeneous") (PyStr "tree")
                                         (PyInt 7)))),
     ("log" ++ separator)%string).
Proof. reflexivity. Qed.

(** ** A run whose output cannot be read to the end *)

(** C3 as stated fails: the process exits with code 0 and wrote two lines, yet
    the log ends in the error line, and the second line and the stderr text
    are not in it. *)
Lemma run_benchmark_read_error :
  wait garbled_process = 0 /\
  run_benchmark (fun _ => Return garbled_process) some_params ""
  = (Return tt, start_marker ++ ("a" ++ nl) ++ error_line "boom")%string /\
  run_benchmark (fun _ => Return garbled_process) some_params ""
  <> (Return tt, start_marker ++ ("a" ++ nl) ++ ("b" ++ nl) ++ ("warn" ++ nl)
                 ++ success_line)%string.
Proof.
  split; [reflexivity|]. split; [reflexivity|].
  vm_compute. discriminate.
Qed.

Lemma run_benchmark_log_witness :
  run_benchmark (fun _ => Return (mk_process [Return ("a" ++ nl)%string]
                                             (Return EmptyString) 2))
                some_params "log"
  = (Return tt,
     "log" ++ start_marker ++ join ["a" ++ nl] ++ "" ++
     (if (2 =? 0)%Z then success_line else failure_line 2))%string.
Proof.
  apply (proj1 (proj2 (proj2 (proj2
           (run_benchmark_log (fun _ => Return (mk_process [Return ("a" ++ nl)%string]
                                                           (Return EmptyString) 2))
                              some_params "log"))))
           (mk_process [Return ("a" ++ nl)%string] (Return EmptyString) 2)
           ["a" ++ nl]%string EmptyString).
  - reflexivity.
  - repeat constructor. discriminate.
  - reflexivity.
  - reflexivity.
Defined.

(** ** More on [count_descendants] *)

Section Counting.

Lemma interval_In lo hi j : In j (interval lo hi) <-> lo <= j < hi.
Proof.
  unfold interval. rewrite in_map_iff. split.
  - intros (k & <- & Hk). apply in_seq in Hk. lia.
  - intros Hj. exists (Z.to_nat (j - lo)). split; [lia | apply in_seq; lia].
Qed.

Lemma interval_length lo hi : List.length (interval lo hi) = Z.to_nat (hi - lo).
Proof. unfold interval. now rewrite length_map, length_seq. Qed.

Lemma interval_NoDup lo hi : NoDup (interval lo hi).
Proof.
  unfold interval. apply Injective_map_NoDup; [|apply seq_NoDup].
  intros a b H. lia.
Qed.

Lemma NoDup_same_members_length (l l' : list Z) :
  NoDup l -> NoDup l' -> (forall x, In x l <-> In x l') ->
  List.length l = List.length l'.
Proof.
  intros Hl Hl' H. apply Nat.le_antisymm; apply NoDup_incl_length; auto;
    intros x Hx; now apply H.
Qed.

(** A negative index with a left child in range sends the recursion ever
    further down: no depth is enough. *)
Lemma count_descendants_negative_None fuel :
  forall i num, i < 0 -> 2 * i + 1 < num -> count_descendants fuel i num = None.
Proof.
  induction fuel as [| fuel IH]; intros i num Hi Hn; [reflexivity|].
  cbn [count_descendants]. cbv zeta.
  replace (2 * i + 1 <? num) with true by (symmetry; apply Z.ltb_lt; lia).
  rewrite IH by lia. reflexivity.
Qed.

(** With depth to spare the count is [descendant_total]. *)
Lemma count_descendants_enough fuel i num :
  0 <= i -> (Z.to_nat (num - i) < fuel)%nat ->
  count_descendants fuel i num = Some (descendant_total num i).
Proof.
  intros Hi Hf. unfold descendant_total.
  destruct (count_descendants_spec (S (Z.to_nat (num - i))) i num Hi) as (l & _ & He);
    [lia|].
  rewrite He. apply (count_descendants_fuel_mono (S (Z.to_nat (num - i)))); [lia | exact He].
Qed.

Lemma count_descendants_S fuel i num :
  count_descendants (S fuel) i num
  = (count <- (if 2 * i + 1 <? num
               then d <- count_descendants fuel (2 * i + 1) num ;; Some (0 + (1 + d))
               else Some 0) ;;
     count <- (if 2 * i + 2 <? num
               then d <- count_descendants fuel (2 * i + 2) num ;; Some (count + (1 + d))
               else Some count) ;;
     Some count).
Proof. reflexivity. Qed.

(** The recursion of the source, on the counts. *)
Lemma descendant_total_eq num i :
  0 <= i ->
  descendant_total num i
  = (if 2 * i + 1 <? num then 1 + descendant_total num (2 * i + 1) else 0)
    + (if 2 * i + 2 <? num then 1 + descendant_total num (2 * i + 2) else 0).
Proof.
  intros Hi.
  pose proof (count_descendants_enough (S (S (Z.to_nat (num - i)))) i num Hi
                ltac:(lia)) as H.
  rewrite count_descendants_S in H. revert H.
  destruct (Z.ltb_spec (2 * i + 1) num) as [H1 | H1];
    destruct (Z.ltb_spec (2 * i + 2) num) as [H2 | H2]; intros H;
    rewrite ?(count_descendants_enough _ (2 * i + 1) num) in H by lia;
    rewrite ?(count_descendants_enough _ (2 * i + 2) num) in H by lia;
    cbn [obind] in H;
    apply (f_equal (fun o => match o with Some k => k | None => 0 end)) in H;
    cbv beta iota in H; lia.
Qed.

Lemma descendant_total_root num : 1 <= num -> descendant_total num 0 = num - 1.
Proof.
  intros Hn. unfold descendant_total.
  destruct (count_descendants_spec (S (Z.to_nat (num - 0))) 0 num)
    as (l & [Hnd Hl] & ->); [lia | lia |].
  rewrite (NoDup_same_members_length l (interval 1 num) Hnd (interval_NoDup 1 num)).
  - rewrite interval_length. lia.
  - intros x. rewrite Hl, interval_In. split; [lia|].
    intros Hx. split; [lia | apply reachable_from_root; lia].
Qed.

End Counting.

(** X1. The root of a tree of [num >= 1] nodes has [num - 1] descendants:
    a collapsed root is labelled with all the other nodes. *)
Theorem count_descendants_root (fuel : nat) (num : Z) :
  1 <= num -> (Z.to_nat num < fuel)%nat ->
  count_descendants fuel 0 num = Some (num - 1).
Proof.
  intros Hn Hf. rewrite count_descendants_enough; [| lia | now rewrite Z.sub_0_r].
  now rewrite descendant_total_root.
Qed.

Lemma count_descendants_root_witness : count_descendants 11 0 10 = Some (10 - 1).
Proof.
  apply (count_descendants_root 11 10); [lia | cbn; lia].
Defined.

(** X2. For [0 <= i < num] the count lies between 0 and the number of
    indices above [i], and it is 0 exactly for a leaf. *)
Theorem count_descendants_bounds (fuel : nat) (i num : Z) :
  0 <= i < num -> (Z.to_nat (num - i) < fuel)%nat ->
  exists k, count_descendants fuel i num = Some k /\
            0 <= k <= num - 1 - i /\
            (k = 0 <-> num <= 2 * i + 1).
Proof.
  intros [Hi Hin] Hf.
  destruct (count_descendants_spec fuel i num Hi Hf) as (l & [Hnd Hl] & He).
  exists (Z.of_nat (List.length l)). split; [exact He|]. split.
  - split; [lia|].
    assert (Hle : (List.length l <= List.length (interval (i + 1) num))%nat).
    { apply NoDup_incl_length; [exact Hnd|].
      intros x Hx. apply Hl in Hx. apply interval_In. lia. }
    rewrite interval_length in Hle. lia.
  - split.
    + intros Hk. destruct (Z.le_gt_cases num (2 * i + 1)) as [H | H]; [exact H|].
      assert (Hin1 : In (2 * i + 1) l)
        by (apply Hl; split; [lia | apply reachable_left, reachable_refl]).
      destruct l; [destruct Hin1 | cbn in Hk; lia].
    + intros Hleaf. destruct l as [| x l]; [reflexivity|].
      assert (Hx : In x (x :: l)) by now left.
      apply Hl in Hx. destruct Hx as [Hx Hr].
      apply reachable_inv in Hr.
      destruct Hr as [-> | [Hr | Hr]]; [lia | |]; apply reachable_le in Hr; lia.
Qed.

Lemma count_descendants_bounds_witness :
  exists k, count_descendants 8 1 7 = Some k /\
            0 <= k <= 7 - 1 - 1 /\ (k = 0 <-> 7 <= 2 * 1 + 1).
Proof.
  apply (count_descendants_bounds 8 1 7); [lia | cbn; lia].
Defined.

(** X3. On a negative index whose left child [2*i+1] is below [num] the
    recursion never returns, whatever the depth: Python ends it with a
    [RecursionError]. *)
Theorem count_descendants_negative_index (fuel : nat) (i num : Z) :
  i < 0 -> 2 * i + 1 < num -> count_descendants fuel i num = None.
Proof.
  intros Hi Hn. now apply count_descendants_negative_None.
Qed.

Lemma count_descendants_negative_index_witness :
  count_descendants 1000 (-1) 7 = None.
Proof.
  apply (count_descendants_negative_index 1000 (-1) 7); lia.
Defined.

(** ** The shape of the lazy view *)

Section Shape.

Variable num : Z.
Variable expanded : list Z.

Lemma nodes_of_app a b : nodes_of (a ++ b) = nodes_of a ++ nodes_of b.
Proof. apply flat_map_app. Qed.

Lemma node_ids_nodes_of els : node_ids els = map id (nodes_of els).
Proof.
  induction els as [| [d | d] els IH]; cbn; [reflexivity | now f_equal | exact IH].
Qed.

(** The label [add_node] computes for an index below [num]. *)
Lemma add_node_label fuel i :
  0 <= i < num -> (Z.to_nat (num - i) < fuel)%nat ->
  exists lab,
    (if (2 * i + 1 <? num) && negb (mem i expanded)
     then descendant_count <- count_descendants fuel i num ;;
          Some ("Node " ++ str i ++ " [+" ++ str descendant_count ++ "]")%string
     else Some ("Node " ++ str i)%string) = Some lab /\
    lazy_label num expanded i lab /\
    mk_node (str i) lab "2.5 GHz" "8GB" = drawn_node num expanded i.
Proof.
  intros [Hi Hn] Hf. unfold drawn_node, hidden_behind.
  destruct (Z.ltb_spec (2 * i + 1) num) as [Hc | Hc];
    destruct (mem i expanded) eqn:Hm; cbn [andb negb].
  - eexists. split; [reflexivity|]. split; [|reflexivity].
    left. apply mem_In in Hm. auto.
  - pose proof (count_descendants_enough fuel i num Hi Hf) as Hk.
    destruct (count_descendants_spec fuel i num Hi Hf) as (l & Hd & He).
    rewrite He in Hk. injection Hk as Hk. rewrite He, Hk.
    cbn [obind]. eexists. split; [reflexivity|]. split; [|reflexivity].
    right. apply mem_false in Hm. split; [exact Hc|]. split; [exact Hm|].
    exists l. split; [exact Hd | now rewrite Hk].
  - eexists. split; [reflexivity|]. split; [|reflexivity]. left. auto.
  - eexists. split; [reflexivity|]. split; [|reflexivity]. left. auto.
Qed.

Lemma hidden_total_app ids ids' :
  hidden_total num expanded (ids ++ ids')
  = hidden_total num expanded ids + hidden_total num expanded ids'.
Proof.
  unfold hidden_total. induction ids as [| x ids IH]; cbn [app map fold_right]; lia.
Qed.

Lemma add_node_shape fuel :
  forall i, 0 <= i -> (Z.to_nat (num - i) + 2 <= fuel)%nat ->
  exists out ids,
    (forall els, add_node fuel num expanded i els = Some (els ++ out)) /\
    node_ids out = map str ids /\
    (forall j, In j ids <-> shown_below num expanded i j) /\
    NoDup ids /\
    List.length ids
    = (List.length (edges_of out) + (if (i <? num)%Z then 1 else 0))%nat /\
    Forall (edge_closed out) (edges_of out) /\
    Forall (lazy_node num expanded) (nodes_of out) /\
    Z.of_nat (List.length ids) + hidden_total num expanded ids
    = (if i <? num then 1 + descendant_total num i else 0) /\
    nodes_of out = map (drawn_node num expanded) ids.
Proof.
  induction fuel as [| fuel IH]; intros i Hi Hf; [lia|].
  cbn [add_node]. cbv zeta.
  destruct (Z.leb_spec num i) as [Hge | Hlt].
  - exists [], []. split; [intros els; now rewrite app_nil_r|].
    split; [reflexivity|]. split.
    { intros j. split; [intros [] | intros H].
      apply shown_below_range in H; [lia | exact Hi]. }
    replace (i <? num) with false by (symmetry; apply Z.ltb_ge; lia).
    split; [constructor|]. split; [reflexivity|].
    split; [constructor|]. split; [constructor|]. split; reflexivity.
  - replace (i <? num) with true by (symmetry; apply Z.ltb_lt; lia).
    destruct (add_node_label fuel i) as (lab & -> & Hlab & Hdrawn); [lia | lia |].
    cbn [obind].
    assert (Hroot : lazy_node num expanded (mk_node (str i) lab "2.5 GHz" "8GB")).
    { exists i. cbn [id label cpu memory]. repeat split; (lia || auto). }
    destruct (mem i expanded) eqn:Hm.
    + apply mem_In in Hm.
      assert (Hsub : forall c, c = 2 * i + 1 \/ c = 2 * i + 2 ->
                exists out ids,
                  (forall els0,
                     (if c <? num
                      then elements <- add_node fuel num expanded c els0 ;;
                           Some (elements ++ [Edge (mk_edge (str i) (str c) 100)])
                      else Some els0) = Some (els0 ++ out)) /\
                  node_ids out = map str ids /\
                  (forall j, In j ids <-> shown_below num expanded c j) /\
                  NoDup ids /\
                  List.length ids = List.length (edges_of out) /\
                  Forall (fun e => (source e = str i \/ In (source e) (node_ids out)) /\
                                   In (target e) (node_ids out)) (edges_of out) /\
                  Forall (lazy_node num expanded) (nodes_of out) /\
                  Z.of_nat (List.length ids) + hidden_total num expanded ids
                  = (if c <? num then 1 + descendant_total num c else 0) /\
                  nodes_of out = map (drawn_node num expanded) ids).
      { intros c Hc. destruct (Z.ltb_spec c num) as [Hcn | Hcn].
        - destruct (IH c) as (out & ids & Ho & Hn & Hj & Hnd & Hlen & Hcl & Hln & Hh & Hdr);
            [lia | lia |].
          replace (c <? num) with true in Hlen, Hh by (symmetry; apply Z.ltb_lt; lia).
          exists (out ++ [Edge (mk_edge (str i) (str c) 100)]), ids.
          split; [intros els0; rewrite Ho; cbn [obind]; now rewrite app_assoc|].
          assert (Hids : node_ids (out ++ [Edge (mk_edge (str i) (str c) 100)])
                         = node_ids out)
            by (rewrite node_ids_app; cbn; now rewrite app_nil_r).
          split; [now rewrite Hids|]. split; [exact Hj|]. split; [exact Hnd|].
          split; [rewrite edges_of_app, length_app; cbn; lia|].
          split.
          + rewrite Hids, edges_of_app. apply Forall_app. split.
            * eapply Forall_impl; [|exact Hcl]. intros e [Hs Ht]. auto.
            * cbn. constructor; [|constructor]. cbn [source target].
              split; [now left|]. rewrite Hn. apply in_map. apply Hj.
              apply shown_below_self; lia.
          + assert (Hno : nodes_of (out ++ [Edge (mk_edge (str i) (str c) 100)])
                          = nodes_of out)
              by (rewrite nodes_of_app; cbn; now rewrite app_nil_r).
            rewrite Hno. auto.
        - exists [], []. split; [intros els0; now rewrite app_nil_r|].
          split; [reflexivity|]. split.
          { intros j. split; [intros [] | intros H].
            apply shown_below_range in H; lia. }
          split; [constructor|]. split; [reflexivity|]. split; [constructor|].
          split; [constructor|]. split; reflexivity. }
      destruct (Hsub (2 * i + 1))
        as (outl & idsl & Hol & Hnl & Hjl & Hndl & Hlenl & Hcll & Hlnl & Hhl & Hdrl);
        [now left|].
      destruct (Hsub (2 * i + 2))
        as (outr & idsr & Hor & Hnr & Hjr & Hndr & Hlenr & Hclr & Hlnr & Hhr & Hdrr);
        [now right|].
      exists (Node (mk_node (str i) lab "2.5 GHz" "8GB") :: outl ++ outr),
             (i :: idsl ++ idsr).
      split.
      { intros els. rewrite Hol. cbn [obind]. rewrite Hor. cbn [obind].
        f_equal. rewrite <- !app_assoc. reflexivity. }
      assert (Hids : node_ids (Node (mk_node (str i) lab "2.5 GHz" "8GB") :: outl ++ outr)
                     = str i :: node_ids outl ++ node_ids outr)
        by (cbn; now rewrite node_ids_app).
      split; [rewrite Hids, Hnl, Hnr; cbn; now rewrite map_app|].
      split.
      { intros j. cbn [In]. rewrite in_app_iff, Hjl, Hjr. split.
        - intros [<- | [H | H]].
          + now apply shown_below_self.
          + now apply shown_below_left.
          + now apply shown_below_right.
        - intros H. apply shown_below_inv in H; [|exact Hi].
          destruct H as [-> | [_ [H | H]]]; auto. }
      split.
      { constructor.
        - rewrite in_app_iff, Hjl, Hjr.
          intros [H | H]; apply shown_below_range in H; lia.
        - apply NoDup_app; [exact Hndl | exact Hndr |].
          intros x Hx Hx'. apply Hjl in Hx. apply Hjr in Hx'.
          destruct Hx as (_ & Hx & _), Hx' as (_ & Hx' & _).
          exact (subtrees_disjoint i x Hi Hx Hx'). }
      split.
      { cbn [List.length]. rewrite length_app, Hlenl, Hlenr.
        change (edges_of (Node (mk_node (str i) lab "2.5 GHz" "8GB") :: outl ++ outr))
          with (edges_of (outl ++ outr)).
        rewrite edges_of_app, length_app. lia. }
      split.
      { change (edges_of (Node (mk_node (str i) lab "2.5 GHz" "8GB") :: outl ++ outr))
          with (edges_of (outl ++ outr)).
        rewrite edges_of_app. apply Forall_app. split.
        - eapply Forall_impl; [|exact Hcll]. intros e [Hs Ht].
          unfold edge_closed. rewrite Hids. cbn [In]. rewrite !in_app_iff.
          split; [destruct Hs as [Hs | Hs]; auto | auto].
        - eapply Forall_impl; [|exact Hclr]. intros e [Hs Ht].
          unfold edge_closed. rewrite Hids. cbn [In]. rewrite !in_app_iff.
          split; [destruct Hs as [Hs | Hs]; auto | auto]. }
      split.
      { change (nodes_of (Node (mk_node (str i) lab "2.5 GHz" "8GB") :: outl ++ outr))
          with (mk_node (str i) lab "2.5 GHz" "8GB" :: nodes_of (outl ++ outr)).
        constructor; [exact Hroot|]. rewrite nodes_of_app. apply Forall_app. now split. }
      split.
      { change (hidden_total num expanded (i :: idsl ++ idsr))
          with (hidden_behind num expanded i + hidden_total num expanded (idsl ++ idsr)).
        rewrite hidden_total_app. unfold hidden_behind at 1.
        replace (mem i expanded) with true by (symmetry; now apply mem_In).
        rewrite andb_false_r. cbn [List.length]. rewrite length_app.
        rewrite (descendant_total_eq num i Hi). lia. }
      change (nodes_of (Node (mk_node (str i) lab "2.5 GHz" "8GB") :: outl ++ outr))
        with (mk_node (str i) lab "2.5 GHz" "8GB" :: nodes_of (outl ++ outr)).
      rewrite nodes_of_app, Hdrl, Hdrr, Hdrawn. cbn [map]. now rewrite map_app.
    + apply mem_false in Hm.
      exists [Node (mk_node (str i) lab "2.5 GHz" "8GB")], [i].
      split; [reflexivity|]. split; [reflexivity|]. split.
      { intros j. cbn [In]. split.
        * intros [<- | []]. now apply shown_below_self.
        * intros H. apply shown_below_inv in H; [|exact Hi].
          destruct H as [-> | [H _]]; [now left | contradiction]. }
      split; [constructor; [intros [] | constructor]|].
      split; [reflexivity|]. split; [constructor|].
      split; [cbn; constructor; [exact Hroot | constructor]|].
      split; [|cbn; now rewrite Hdrawn].
      unfold hidden_total, hidden_behind. cbn [map fold_right List.length].
      replace (mem i expanded) with false by (symmetry; now apply mem_false).
      cbn [negb]. rewrite andb_true_r, (descendant_total_eq num i Hi).
      destruct (Z.ltb_spec (2 * i + 1) num) as [H1 | H1];
        destruct (Z.ltb_spec (2 * i + 2) num) as [H2 | H2]; lia.
Qed.

End Shape.

Section WholeShape.

Lemma build_tree_elements_shape fuel num expanded :
  (Z.to_nat num + 2 <= fuel)%nat ->
  exists els ids,
    build_tree_elements fuel num expanded = Some els /\
    node_ids els = map str ids /\
    (forall j, In j ids <-> visible num expanded j) /\
    NoDup ids /\
    List.length ids
    = (List.length (edges_of els) + (if (0 <? num)%Z then 1 else 0))%nat /\
    Forall (edge_closed els) (edges_of els) /\
    Forall (lazy_node num expanded) (nodes_of els) /\
    Z.of_nat (List.length ids) + hidden_total num expanded ids
    = (if 0 <? num then 1 + descendant_total num 0 else 0) /\
    nodes_of els = map (drawn_node num expanded) ids.
Proof.
  intros Hf.
  destruct (add_node_shape num expanded fuel 0)
    as (out & ids & Ho & Hn & Hj & Hnd & Hlen & Hcl & Hln);
    [lia | rewrite Z.sub_0_r; exact Hf |].
  exists out, ids. unfold build_tree_elements. rewrite Ho.
  split; [reflexivity|]. split; [exact Hn|]. split.
  { intros j. now rewrite Hj, shown_below_root. }
  auto.
Qed.

Lemma visible_incl num E E' j :
  incl E E' -> visible num E j -> visible num E' j.
Proof.
  intros Hi [Hj Ha]. split; [exact Hj|]. intros a H0 Hne Hr. apply Hi. now apply Ha.
Qed.

(** The only way into a child is through its parent. *)
Lemma reachable_parent a i c :
  c = 2 * i + 1 \/ c = 2 * i + 2 -> a <> c -> reachable a c -> reachable a i.
Proof.
  intros Hc Hne Hr. apply clos_rt_rtn1 in Hr. destruct Hr as [| y z Hy Hr]; [congruence|].
  apply clos_rtn1_rt in Hr. replace i with y; [exact Hr|].
  destruct Hy as [Hy | Hy], Hc as [Hc | Hc]; lia.
Qed.

Lemma visible_child num E i c :
  c = 2 * i + 1 \/ c = 2 * i + 2 -> c < num -> In i E ->
  visible num E i -> visible num E c.
Proof.
  intros Hc Hn Hi [Hr Ha]. split; [lia|].
  intros a H0 Hne Hac. apply (reachable_parent a i c Hc Hne) in Hac.
  destruct (Z.eq_dec a i) as [-> | Hai]; [exact Hi | now apply Ha].
Qed.

End WholeShape.

(** X4. No two nodes of the lazy view have the same id. *)
Theorem lazy_view_ids_distinct (fuel : nat) (num : Z) (expanded : list Z) :
  (Z.to_nat num + 2 <= fuel)%nat ->
  exists els, build_tree_elements fuel num expanded = Some els /\
              NoDup (node_ids els).
Proof.
  intros Hf.
  destruct (build_tree_elements_shape fuel num expanded Hf)
    as (els & ids & He & Hn & _ & Hnd & _).
  exists els. split; [exact He|]. rewrite Hn.
  apply Injective_map_NoDup; [|exact Hnd]. intros a b. apply str_inj.
Qed.

Lemma lazy_view_ids_distinct_witness :
  exists els, build_tree_elements 9 7 [0; 0; 1] = Some els /\ NoDup (node_ids els).
Proof.
  apply (lazy_view_ids_distinct 9 7 [0; 0; 1]). cbn. lia.
Defined.

(** X5. The lazy view of a tree with at least one node is itself a tree
    drawn in full: it has one edge fewer than nodes, and both ends of every
    edge are nodes of the view. *)
Theorem lazy_view_is_a_tree (fuel : nat) (num : Z) (expanded : list Z) :
  0 < num -> (Z.to_nat num + 2 <= fuel)%nat ->
  exists els, build_tree_elements fuel num expanded = Some els /\
              List.length (node_ids els) = S (List.length (edges_of els)) /\
              Forall (edge_closed els) (edges_of els).
Proof.
  intros Hn Hf.
  destruct (build_tree_elements_shape fuel num expanded Hf)
    as (els & ids & He & Hi & _ & _ & Hlen & Hcl & _).
  exists els. split; [exact He|]. split; [|exact Hcl].
  rewrite Hi, length_map, Hlen.
  replace (0 <? num) with true by (symmetry; apply Z.ltb_lt; lia). lia.
Qed.

Lemma lazy_view_is_a_tree_witness :
  exists els, build_tree_elements 9 7 [0; 2] = Some els /\
              List.length (node_ids els) = S (List.length (edges_of els)) /\
              Forall (edge_closed els) (edges_of els).
Proof.
  apply (lazy_view_is_a_tree 9 7 [0; 2]); [lia | cbn; lia].
Defined.

(** X6. Every node of the lazy view is drawn for an index [i] below [num]
    with the fixed CPU and memory texts, and is labelled "Node i" when [i] is
    a leaf or expanded, and "Node i [+k]" with [k] the number of descendants
    of [i] otherwise. *)
Theorem lazy_view_labels (fuel : nat) (num : Z) (expanded : list Z) :
  (Z.to_nat num + 2 <= fuel)%nat ->
  exists els, build_tree_elements fuel num expanded = Some els /\
              Forall (lazy_node num expanded) (nodes_of els).
Proof.
  intros Hf.
  destruct (build_tree_elements_shape fuel num expanded Hf)
    as (els & ids & He & _ & _ & _ & _ & _ & Hln & _).
  exists els. now split.
Qed.

Lemma lazy_view_labels_witness :
  exists els, build_tree_elements 9 7 [0] = Some els /\
              Forall (lazy_node 7 [0]) (nodes_of els).
Proof.
  apply (lazy_view_labels 9 7 [0]). cbn. lia.
Defined.

(** X7. Expanding more nodes never removes a node from the view. *)
Theorem lazy_view_grows_with_expansion (fuel : nat) (num : Z)
                                       (expanded expanded' : list Z) :
  (Z.to_nat num + 2 <= fuel)%nat -> incl expanded expanded' ->
  exists els els',
    build_tree_elements fuel num expanded = Some els /\
    build_tree_elements fuel num expanded' = Some els' /\
    incl (node_ids els) (node_ids els').
Proof.
  intros Hf Hi.
  destruct (build_tree_elements_shape fuel num expanded Hf)
    as (els & ids & He & Hn & Hj & _).
  destruct (build_tree_elements_shape fuel num expanded' Hf)
    as (els' & ids' & He' & Hn' & Hj' & _).
  exists els, els'. split; [exact He|]. split; [exact He'|].
  rewrite Hn, Hn'. intros s Hs. apply in_map_iff in Hs.
  destruct Hs as (j & <- & Hin). apply in_map. apply Hj'.
  apply (visible_incl num expanded expanded' j Hi). now apply Hj.
Qed.

Lemma lazy_view_grows_with_expansion_witness :
  exists els els',
    build_tree_elements 9 7 [0] = Some els /\
    build_tree_elements 9 7 [0; 1] = Some els' /\
    incl (node_ids els) (node_ids els').
Proof.
  apply (lazy_view_grows_with_expansion 9 7 [0] [0; 1]); [cbn; lia|].
  intros x [<- | []]. now left.
Defined.

(** X8. Once every node that has a child is expanded, the lazy view shows
    the whole tree: exactly the nodes [0 .. num-1], each labelled "Node i"
    without a count. *)
Theorem fully_expanded_view_is_the_tree (fuel : nat) (num : Z) (expanded : list Z) :
  (Z.to_nat num + 2 <= fuel)%nat ->
  (forall a, 0 <= a -> 2 * a + 1 < num -> In a expanded) ->
  exists els,
    build_tree_elements fuel num expanded = Some els /\
    (forall i, In (str i) (node_ids els) <-> 0 <= i < num) /\
    List.length (node_ids els) = Z.to_nat num /\
    Forall (fun d => exists i, id d = str i /\ label d = ("Node " ++ str i)%string)
           (nodes_of els).
Proof.
  intros Hf Hall.
  destruct (build_tree_elements_shape fuel num expanded Hf)
    as (els & ids & He & Hn & Hj & Hnd & _ & _ & Hln & _).
  assert (Hvis : forall j, visible num expanded j <-> 0 <= j < num).
  { intros j. split; [now intros [H _]|]. intros Hr. split; [exact Hr|].
    intros a H0 Hne Haj. apply Hall; [exact H0|].
    apply reachable_inv in Haj.
    destruct Haj as [-> | [Haj | Haj]]; [congruence | |];
      apply reachable_le in Haj; lia. }
  exists els. split; [exact He|]. split.
  { intros i. now rewrite Hn, In_map_str, Hj, Hvis. }
  split.
  { rewrite Hn, length_map.
    rewrite (NoDup_same_members_length ids (interval 0 num) Hnd (interval_NoDup 0 num)).
    - rewrite interval_length. f_equal. lia.
    - intros x. now rewrite Hj, Hvis, interval_In. }
  eapply Forall_impl; [|exact Hln].
  intros d (i & Hi & Hid & Hlab & _). exists i. split; [exact Hid|].
  destruct Hlab as [[_ Hl] | (Hc & Hne & _)]; [exact Hl|].
  exfalso. apply Hne, Hall; lia.
Qed.

Lemma fully_expanded_view_is_the_tree_witness :
  exists els,
    build_tree_elements 9 7 [0; 1; 2] = Some els /\
    (forall i, In (str i) (node_ids els) <-> 0 <= i < 7) /\
    List.length (node_ids els) = Z.to_nat 7 /\
    Forall (fun d => exists i, id d = str i /\ label d = ("Node " ++ str i)%string)
           (nodes_of els).
Proof.
  apply (fully_expanded_view_is_the_tree 9 7 [0; 1; 2]); [cbn; lia|].
  intros a H0 Ha. cbn [In].
  assert (a = 0 \/ a = 1 \/ a = 2) by lia. intuition.
Defined.

(** X9. A click and the next render, for a tree of more than 3 nodes: the
    view keeps every node it had, and the children of a clicked node that was
    in the view are in the view afterwards. *)
Theorem click_reveals_children (fuel : nat) (num_nodes topology_type : pyval)
                               (E : option (list Z)) (i : Z) (lbl : string) :
  3 < node_count num_nodes ->
  (Z.to_nat (node_count num_nodes) + 2 <= fuel)%nat ->
  exists before after,
    update_network_topology fuel num_nodes topology_type E = Some before /\
    update_network_topology fuel num_nodes topology_type
      (store_after E (expand_node (tap_on i lbl) E num_nodes)) = Some after /\
    incl (node_ids before) (node_ids after) /\
    (In (str i) (node_ids before) ->
     forall c, c = 2 * i + 1 \/ c = 2 * i + 2 -> c < node_count num_nodes ->
               In (str c) (node_ids after)).
Proof.
  intros Hn Hf. unfold update_network_topology.
  replace (node_count num_nodes <=? 3) with false by (symmetry; apply Z.leb_gt; lia).
  change (match E with None => [] | Some l => l end) with (expanded_set E).
  set (E' := store_after E (expand_node (tap_on i lbl) E num_nodes)).
  change (match E' with None => [] | Some l => l end) with (expanded_set E').
  pose proof (expand_node_never_shrinks (tap_on i lbl) E num_nodes) as Hincl.
  fold E' in Hincl.
  destruct (build_tree_elements_shape fuel (node_count num_nodes) (expanded_set E) Hf)
    as (els & ids & He & Hi & Hj & _).
  destruct (build_tree_elements_shape fuel (node_count num_nodes) (expanded_set E') Hf)
    as (els' & ids' & He' & Hi' & Hj' & _).
  exists els, els'. split; [exact He|]. split; [exact He'|]. split.
  - rewrite Hi, Hi'. intros s Hs. apply in_map_iff in Hs.
    destruct Hs as (j & <- & Hin). apply in_map. apply Hj'.
    apply (visible_incl _ _ _ j Hincl). now apply Hj.
  - rewrite Hi, Hi', In_map_str. intros Hin c Hc Hcn.
    apply In_map_str, Hj'. apply Hj in Hin.
    apply (visible_child _ _ i c Hc Hcn); [|now apply (visible_incl _ _ _ i Hincl)].
    unfold E'. rewrite expand_node_tap.
    replace (2 * i + 1 >=? node_count num_nodes) with false
      by (symmetry; rewrite Z.geb_leb; apply Z.leb_gt; lia).
    cbn [store_after expanded_set].
    destruct (mem i (expanded_set E)) eqn:Hm; cbn [negb].
    + now apply mem_In.
    + apply in_app_iff. right. now left.
Qed.

Lemma click_reveals_children_witness :
  exists before after,
    update_network_topology 9 (PyInt 7) PyNone (Some []) = Some before /\
    update_network_topology 9 (PyInt 7) PyNone
      (store_after (Some []) (expand_node (tap_on 0 "Node 0 [+6]") (Some []) (PyInt 7)))
    = Some after /\
    incl (node_ids before) (node_ids after) /\
    (In (str 0) (node_ids before) ->
     forall c, c = 2 * 0 + 1 \/ c = 2 * 0 + 2 -> c < node_count (PyInt 7) ->
               In (str c) (node_ids after)).
Proof.
  apply (click_reveals_children 9 (PyInt 7) PyNone (Some []) 0 "Node 0 [+6]");
    cbn; lia.
Defined.

(** X23. No node is lost: the nodes of the lazy view are the nodes drawn
    for a list of indices, each collapsed one labelled with its count, and
    for [num >= 0] the number of nodes and the counts shown add up to [num]. *)
Theorem drawn_and_hidden_add_up (fuel : nat) (num : Z) (expanded : list Z) :
  0 <= num -> (Z.to_nat num + 2 <= fuel)%nat ->
  exists els ids,
    build_tree_elements fuel num expanded = Some els /\
    nodes_of els = map (drawn_node num expanded) ids /\
    Z.of_nat (List.length (nodes_of els)) + hidden_total num expanded ids = num.
Proof.
  intros Hn Hf.
  destruct (build_tree_elements_shape fuel num expanded Hf)
    as (els & ids & He & _ & _ & _ & _ & _ & _ & Hh & Hdr).
  exists els, ids. split; [exact He|]. split; [exact Hdr|].
  rewrite Hdr, length_map, Hh.
  destruct (Z.ltb_spec 0 num) as [H | H]; [|lia].
  rewrite descendant_total_root; lia.
Qed.

Lemma drawn_and_hidden_add_up_witness :
  exists els ids,
    build_tree_elements 9 7 [0] = Some els /\
    nodes_of els = map (drawn_node 7 [0]) ids /\
    Z.of_nat (List.length (nodes_of els)) + hidden_total 7 [0] ids = 7.
Proof.
  apply (drawn_and_hidden_add_up 9 7 [0]); [lia | cbn; lia].
Defined.

(** ** More on the expansion store *)

(** X10. Clicking the same node twice leaves the store as the first click
    left it, whatever was clicked. *)
Theorem expand_node_idempotent (tapData : option node_data) (E : option (list Z))
                               (num_nodes : pyval) :
  store_after (store_after E (expand_node tapData E num_nodes))
              (expand_node tapData (store_after E (expand_node tapData E num_nodes))
                           num_nodes)
  = store_after E (expand_node tapData E num_nodes).
Proof.
  unfold expand_node. destruct tapData as [tap|]; [|reflexivity].
  destruct (py_int_of_str (id tap)) as [node_id|]; [|reflexivity].
  destruct (2 * node_id + 1 >=? node_count num_nodes); [reflexivity|].
  cbn [store_after]. fold (expanded_set E).
  destruct (mem node_id (expanded_set E)) eqn:Hm; cbn [negb].
  - now rewrite Hm.
  - replace (mem node_id (expanded_set E ++ [node_id])) with true; [reflexivity|].
    symmetry. apply mem_In, in_app_iff. right. now left.
Qed.

(** X11. The store stays a list without repetition of nodes that have a
    child, whatever is clicked. *)
Theorem expand_node_keeps_store_clean (tapData : option node_data)
                                      (E : option (list Z)) (num_nodes : pyval) :
  NoDup (expanded_set E) ->
  (forall a, In a (expanded_set E) -> 2 * a + 1 < node_count num_nodes) ->
  NoDup (expanded_set (store_after E (expand_node tapData E num_nodes))) /\
  (forall a, In a (expanded_set (store_after E (expand_node tapData E num_nodes))) ->
             2 * a + 1 < node_count num_nodes).
Proof.
  intros Hnd Hch. unfold expand_node. destruct tapData as [tap|]; [|now split].
  destruct (py_int_of_str (id tap)) as [node_id|]; [|now split].
  destruct (Z.geb_spec (2 * node_id + 1) (node_count num_nodes)) as [Hleaf | Hin];
    [now split|].
  cbn [store_after expanded_set]. fold (expanded_set E).
  destruct (mem node_id (expanded_set E)) eqn:Hm; cbn [negb]; [now split|].
  apply mem_false in Hm. split.
  - apply NoDup_app; [exact Hnd | constructor; [intros [] | constructor] |].
    intros x Hx [<- | []]. contradiction.
  - intros a Ha. apply in_app_iff in Ha. destruct Ha as [Ha | [<- | []]]; auto.
Qed.

Lemma expand_node_keeps_store_clean_witness :
  NoDup (expanded_set (store_after (Some [0])
                         (expand_node (tap_on 1 "Node 1 [+2]") (Some [0]) (PyInt 7)))) /\
  (forall a, In a (expanded_set (store_after (Some [0])
                         (expand_node (tap_on 1 "Node 1 [+2]") (Some [0]) (PyInt 7)))) ->
             2 * a + 1 < node_count (PyInt 7)).
Proof.
  apply (expand_node_keeps_store_clean (tap_on 1 "Node 1 [+2]") (Some [0]) (PyInt 7)).
  - cbn. constructor; [intros [] | constructor].
  - cbn. intros a [<- | []]. lia.
Defined.

(** X12. A node count given as the decimal text of an integer, of at most
    4300 digits, is plain text, is read as that integer, and draws the same
    view as the integer. *)
Theorem node_count_from_text (fuel : nat) (z : Z) (topology_type : pyval)
                             (expanded : option (list Z)) :
  plain_text (str z) = true ->
  py_int (PyStr (str z)) = Some z /\
  node_count (PyStr (str z)) = z /\
  update_network_topology fuel (PyStr (str z)) topology_type expanded
  = update_network_topology fuel (PyInt z) topology_type expanded.
Proof.
  intros _.
  assert (H : node_count (PyStr (str z)) = z)
    by (cbn [node_count py_int]; now rewrite py_int_of_str_str).
  split; [apply py_int_of_str_str|].
  split; [exact H|]. unfold update_network_topology. now rewrite H.
Qed.

Lemma node_count_from_text_witness :
  py_int (PyStr (str 12)) = Some 12 /\
  node_count (PyStr (str 12)) = 12 /\
  update_network_topology 14 (PyStr (str 12)) PyNone None
  = update_network_topology 14 (PyInt 12) PyNone None.
Proof.
  apply (node_count_from_text 14 12 PyNone None). reflexivity.
Defined.

(** ** More on the runner and the start button *)

Section RunnerExact.

(** The read loop logs the lines before the first empty read or error, and
    ends in that error if there is one. *)
Lemma read_stdout_exact reads :
  forall logs,
    read_stdout reads logs
    = (match read_error reads with
       | Some e => Raise e
       | None => Return tt
       end, (logs ++ join (lines_read reads))%string).
Proof.
  induction reads as [| [line | e] reads IH]; intros logs.
  - cbn. unfold ret. now rewrite append_nil_r.
  - cbn [read_stdout lines_read read_error].
    destruct (String.eqb line EmptyString).
    + cbn. unfold ret. now rewrite append_nil_r.
    + unfold bind, log_append. rewrite IH. cbn [join fold_right].
      rewrite append_assoc. now destruct (read_error reads).
  - cbn. unfold raise. now rewrite append_nil_r.
Qed.

End RunnerExact.

(** X13. The log after a run, for every process record, that is for every
    process whose reads each return or raise: the start marker; then, if the
    process was spawned, the stdout lines read before the first empty read
    or read error (an empty read ends the loop, lines behind it are not
    logged); then the error line if spawning, a stdout read or the stderr
    read raised, and otherwise the stderr text followed by the success line
    for exit code 0 or the failure line with the code. *)
Theorem run_benchmark_appends_exactly (popen : params -> outcome process)
                                      (p : params) (logs : string) :
  run_benchmark popen p logs
  = (Return tt,
     logs ++ start_marker ++
     match popen p with
     | Raise e => error_line e
     | Return proc =>
         join (lines_read (stdout_readline proc)) ++
         match read_error (stdout_readline proc) with
         | Some e => error_line e
         | None =>
             match stderr_read proc with
             | Raise e => error_line e
             | Return stderr =>
                 stderr ++ (if (wait proc =? 0)%Z then success_line
                            else failure_line (wait proc))
             end
         end
     end)%string.
Proof.
  unfold run_benchmark, try_except. unfold bind at 1. unfold log_append at 1.
  unfold bind at 1. unfold perform at 1.
  destruct (popen p) as [proc | e].
  - unfold bind at 1. rewrite read_stdout_exact.
    destruct (read_error (stdout_readline proc)) as [e |].
    + unfold log_append. now rewrite !append_assoc.
    + unfold bind at 1. unfold perform at 1.
      destruct (stderr_read proc) as [stderr | e].
      * unfold bind at 1.
        destruct (String.eqb_spec stderr EmptyString) as [-> | Hne]; cbn [negb];
          unfold ret, log_append; rewrite !append_assoc; reflexivity.
      * unfold log_append. now rewrite !append_assoc.
  - unfold log_append. now rewrite !append_assoc.
Qed.

(** X14. A runner thread is started only after a click on a form whose five
    fields are all truthy; it gets exactly those fields, and the log gets the
    separator line and nothing else. *)
Theorem start_experiment_only_runs_complete_forms
    (n_clicks data_set query hardware_heterogeneity network_topology
     num_of_nodes : pyval) (logs logs' : string) (r : start_result) (p : params) :
  start_experiment n_clicks data_set query hardware_heterogeneity
                   network_topology num_of_nodes logs = (Return r, logs') ->
  started r = Some p ->
  p = mk_params data_set query hardware_heterogeneity network_topology num_of_nodes /\
  truthy n_clicks = true /\
  truthy data_set = true /\ truthy query = true /\
  truthy hardware_heterogeneity = true /\ truthy network_topology = true /\
  truthy num_of_nodes = true /\
  logs' = (logs ++ separator)%string.
Proof.
  unfold start_experiment. intros H Hs.
  destruct (truthy n_clicks); [|injection H as <- _; discriminate Hs].
  destruct (forallb truthy [data_set; query; hardware_heterogeneity;
                            network_topology; num_of_nodes]) eqn:Hall; cbn [negb] in H.
  - cbn in H. injection H as <- <-. cbn in Hs. injection Hs as <-.
    cbn [forallb] in Hall. rewrite !andb_true_iff in Hall.
    intuition.
  - cbn in H. injection H as <- _. discriminate Hs.
Qed.

Lemma start_experiment_only_runs_complete_forms_witness :
  mk_params (PyStr "nexmark") (PyStr "q1") (PyStr "homogeneous") (PyStr "tree") (PyInt 7)
  = mk_params (PyStr "nexmark") (PyStr "q1") (PyStr "homogeneous") (PyStr "tree") (PyInt 7) /\
  truthy (PyInt 1) = true /\
  truthy (PyStr "nexmark") = true /\ truthy (PyStr "q1") = true /\
  truthy (PyStr "homogeneous") = true /\ truthy (PyStr "tree") = true /\
  truthy (PyInt 7) = true /\
  ("log" ++ separator)%string = ("log" ++ separator)%string.
Proof.
  apply (start_experiment_only_runs_complete_forms
           (PyInt 1) (PyStr "nexmark") (PyStr "q1") (PyStr "homogeneous")
           (PyStr "tree") (PyInt 7) "log" ("log" ++ separator)%string
           (mk_start 0 (Some (mk_params (PyStr "nexmark") (PyStr "q1")
                                        (PyStr "homogeneous") (PyStr "tree")
                                        (PyInt 7))))
           (mk_params (PyStr "nexmark") (PyStr "q1") (PyStr "homogeneous")
                      (PyStr "tree") (PyInt 7))); reflexivity.
Defined.

(** ** Configuration files *)

Section Config.

Lemma dict_get_absent (d : dict) (key : string) (default : pyval) :
  (forall v, ~ In (key, v) d) -> dict_get d key default = default.
Proof.
  induction d as [| [k v] d IH]; intros H; [reflexivity|].
  cbn [dict_get]. destruct (String.eqb_spec k key) as [-> | Hne].
  - exfalso. apply (H v). now left.
  - apply IH. intros v' Hin. apply (H v'). now right.
Qed.

(** What [load_configuration] does with a document that is a mapping. *)
Lemma load_configuration_mapping loader contents d logs :
  truthy contents = true -> loader contents = Return (Mapping d) ->
  load_configuration loader contents logs
  = (Return (dict_get d "Data Set" (PyStr ""), dict_get d "Query" (PyStr ""),
             dict_get d "Hardware Heterogeneity" (PyStr ""),
             dict_get d "Network Topology" (PyStr ""),
             dict_get d "Number of Nodes" PyNone),
     (logs ++ loaded_message)%string).
Proof.
  intros Ht Hl. unfold load_configuration. rewrite Ht.
  unfold bind, try_except, perform. rewrite Hl. reflexivity.
Qed.

End Config.

(** X15. An upload that is empty or absent returns the blank form and logs
    nothing.  When the helper returns a mapping, the success line is logged
    and each field is the first entry under its key, or its blank (the empty
    text, and [None] for the number of nodes) when the mapping has no such
    key. *)
Theorem load_configuration_fills_the_form (loader : pyval -> outcome document)
                                          (contents : pyval) (logs : string) :
  (truthy contents = false ->
   load_configuration loader contents logs = (Return blank_form, logs)) /\
  (forall d,
     truthy contents = true -> loader contents = Return (Mapping d) ->
     load_configuration loader contents logs
     = (Return (dict_get d "Data Set" (PyStr ""),
                dict_get d "Query" (PyStr ""),
                dict_get d "Hardware Heterogeneity" (PyStr ""),
                dict_get d "Network Topology" (PyStr ""),
                dict_get d "Number of Nodes" PyNone),
        (logs ++ loaded_message)%string)) /\
  (forall d key default,
     (forall v, ~ In (key, v) d) -> dict_get d key default = default) /\
  (forall d d' key v default,
     (forall v', ~ In (key, v') d) ->
     dict_get (d ++ (key, v) :: d') key default = v).
Proof.
  split.
  { intros Ht. unfold load_configuration. now rewrite Ht. }
  split; [intros d Ht Hl; now apply load_configuration_mapping|].
  split; [intros d key default H; now apply dict_get_absent|].
  intros d d' key v default H. induction d as [| [k w] d IH].
  - cbn. now rewrite String.eqb_refl.
  - cbn [app dict_get]. destruct (String.eqb_spec k key) as [-> | Hne].
    + exfalso. apply (H w). now left.
    + apply IH. intros v' Hin. apply (H v'). now right.
Qed.

Lemma load_configuration_fills_the_form_witness :
  load_configuration (fun _ => Return (Mapping [("Query", PyStr "q1");
                                                ("Number of Nodes", PyInt 7)]))
                     (PyStr "data") "log"
  = (Return (PyStr "", PyStr "q1", PyStr "", PyStr "", PyInt 7),
     ("log" ++ loaded_message)%string).
Proof.
  apply (proj1 (proj2 (load_configuration_fills_the_form
                         (fun _ => Return (Mapping [("Query", PyStr "q1");
                                                    ("Number of Nodes", PyInt 7)]))
                         (PyStr "data") "log"))
           [("Query", PyStr "q1"); ("Number of Nodes", PyInt 7)]); reflexivity.
Defined.

(** X16. A load that fails blanks the form and logs the error: the error
    line alone when the helper raises, and the success line followed by the
    error line when the helper returns a document that is not a mapping. *)
Theorem load_configuration_failure (loader : pyval -> outcome document)
                                   (contents : pyval) (logs : string) :
  truthy contents = true ->
  (forall e, loader contents = Raise e ->
     load_configuration loader contents logs
     = (Return blank_form, (logs ++ load_error_message e)%string)) /\
  (forall err, loader contents = Return (NotMapping err) ->
     load_configuration loader contents logs
     = (Return blank_form,
        (logs ++ loaded_message ++ load_error_message err)%string)).
Proof.
  intros Ht. split.
  - intros e Hl. unfold load_configuration. rewrite Ht.
    unfold bind, try_except, perform. rewrite Hl. reflexivity.
  - intros err Hl. unfold load_configuration. rewrite Ht.
    unfold bind, try_except, perform. rewrite Hl. cbn.
    unfold log_append. now rewrite append_assoc.
Qed.

Lemma load_configuration_failure_witness :
  load_configuration (fun _ => Return (NotMapping "no get")) (PyStr "data") "log"
  = (Return blank_form,
     ("log" ++ loaded_message ++ load_error_message "no get")%string).
Proof.
  apply (proj2 (load_configuration_failure (fun _ => Return (NotMapping "no get"))
                  (PyStr "data") "log" eq_refl) "no get").
  reflexivity.
Defined.

(** X17. The keys agree: loading a document that holds the dict
    [save_configuration] builds from the form gives the form back. *)
Theorem load_configuration_reads_saved_config
    (loader : pyval -> outcome document) (contents : pyval) (logs : string)
    (data_set query hardware_heterogeneity network_topology num_of_nodes : pyval) :
  truthy contents = true ->
  loader contents = Return (Mapping (config_of data_set query hardware_heterogeneity
                                               network_topology num_of_nodes)) ->
  load_configuration loader contents logs
  = (Return (data_set, query, hardware_heterogeneity, network_topology, num_of_nodes),
     (logs ++ loaded_message)%string).
Proof.
  intros Ht Hl. rewrite (load_configuration_mapping _ _ _ _ Ht Hl). reflexivity.
Qed.

Lemma load_configuration_reads_saved_config_witness :
  load_configuration
    (fun _ => Return (Mapping (config_of (PyStr "nexmark") (PyStr "q1")
                                         (PyStr "homogeneous") (PyStr "tree")
                                         (PyInt 7))))
    (PyStr "data") "log"
  = (Return (PyStr "nexmark", PyStr "q1", PyStr "homogeneous", PyStr "tree", PyInt 7),
     ("log" ++ loaded_message)%string).
Proof.
  apply (load_configuration_reads_saved_config
           (fun _ => Return (Mapping (config_of (PyStr "nexmark") (PyStr "q1")
                                                (PyStr "homogeneous") (PyStr "tree")
                                                (PyInt 7))))
           (PyStr "data") "log"); reflexivity.
Defined.

(** X18. A loaded mapping that lacks one of the five keys leaves that field
    blank, and a start request on the loaded form is then refused. *)
Theorem missing_key_blocks_start (loader : pyval -> outcome document)
                                 (contents : pyval) (d : dict) (key : string)
                                 (logs : string) :
  truthy contents = true ->
  loader contents = Return (Mapping d) ->
  In key ["Data Set"; "Query"; "Hardware Heterogeneity"; "Network Topology";
          "Number of Nodes"]%string ->
  (forall v, ~ In (key, v) d) ->
  exists data_set query hardware_heterogeneity network_topology num_of_nodes,
    load_configuration loader contents logs
    = (Return (data_set, query, hardware_heterogeneity, network_topology,
               num_of_nodes),
       (logs ++ loaded_message)%string) /\
    forall n_clicks logs2,
      truthy n_clicks = true ->
      start_experiment n_clicks data_set query hardware_heterogeneity
                       network_topology num_of_nodes logs2
      = (Return (mk_start 0 None), (logs2 ++ required_message)%string).
Proof.
  intros Ht Hl Hk Habs.
  eexists _, _, _, _, _.
  split; [exact (load_configuration_mapping loader contents d logs Ht Hl)|].
  intros n_clicks logs2 Hn.
  cbn [In] in Hk.
  destruct Hk as [<- | [<- | [<- | [<- | [<- | []]]]]];
    match goal with
    | |- context [dict_get d ?k ?dflt] =>
        lazymatch goal with
        | H : forall v, ~ In (k, v) d |- _ =>
            apply (start_experiment_refused _ _ _ _ _ _ dflt);
              [exact Hn | rewrite (dict_get_absent d k dflt H) | reflexivity]
        end
    end; cbn [In]; auto 10.
Qed.

Lemma missing_key_blocks_start_witness :
  exists data_set query hardware_heterogeneity network_topology num_of_nodes,
    load_configuration (fun _ => Return (Mapping [("Data Set", PyStr "nexmark")]))
                       (PyStr "data") "log"
    = (Return (data_set, query, hardware_heterogeneity, network_topology,
               num_of_nodes),
       ("log" ++ loaded_message)%string) /\
    forall n_clicks logs2,
      truthy n_clicks = true ->
      start_experiment n_clicks data_set query hardware_heterogeneity
                       network_topology num_of_nodes logs2
      = (Return (mk_start 0 None), (logs2 ++ required_message)%string).
Proof.
  apply (missing_key_blocks_start (fun _ => Return (Mapping [("Data Set", PyStr "nexmark")]))
           (PyStr "data") [("Data Set", PyStr "nexmark")] "Query" "log").
  - reflexivity.
  - reflexivity.
  - right; left; reflexivity.
  - intros v [H | []]. discriminate H.
Defined.

(** X19. Saving never raises: without a click it does nothing and asks for
    no update; on a click it resets the click count to 0 and appends one
    line, the name of the file written or the error of the helper. *)
Theorem save_configuration_never_raises
    (save_to_yaml : dict -> outcome string)
    (n_clicks data_set query hardware_heterogeneity network_topology
     num_of_nodes : pyval) (logs : string) :
  (truthy n_clicks = false /\
   save_configuration save_to_yaml n_clicks data_set query hardware_heterogeneity
                      network_topology num_of_nodes logs
   = (Return no_update, logs)) \/
  (truthy n_clicks = true /\
   exists msg,
     save_configuration save_to_yaml n_clicks data_set query hardware_heterogeneity
                        network_topology num_of_nodes logs
     = (Return (Value 0), (logs ++ msg)%string) /\
     ((exists filename,
         save_to_yaml (config_of data_set query hardware_heterogeneity
                                 network_topology num_of_nodes) = Return filename /\
         msg = saved_message filename) \/
      (exists e,
         save_to_yaml (config_of data_set query hardware_heterogeneity
                                 network_topology num_of_nodes) = Raise e /\
         msg = save_error_message e))).
Proof.
  unfold save_configuration. destruct (truthy n_clicks); [right | left; now split].
  split; [reflexivity|]. cbv zeta. unfold bind, try_except, perform.
  destruct (save_to_yaml _) as [filename | e] eqn:Hs.
  - exists (saved_message filename). split; [reflexivity|]. left. now exists filename.
  - exists (save_error_message e). split; [reflexivity|]. right. now exists e.
Qed.

(** ** Tooltip and panels *)

Section Tooltip.

Lemma in_nodes_of d els : In (Node d) els -> In d (nodes_of els).
Proof.
  intros H. unfold nodes_of. apply in_flat_map. exists (Node d). split; [exact H | now left].
Qed.

Lemma in_edges_of d els : In (Edge d) els -> In d (edges_of els).
Proof.
  intros H. unfold edges_of. apply in_flat_map. exists (Edge d). split; [exact H | now left].
Qed.

End Tooltip.

(** X20. When one of the triggering events is a mouseout the tooltip is
    emptied and hidden, whatever the hover data are. *)
Theorem tooltip_hidden_on_mouseout (triggered : list string)
    (mouseoverNode mouseoverEdge mouseoutNode mouseoutEdge : option dict)
    (prop_id : string) :
  In prop_id triggered -> contains "mouseout" prop_id = true ->
  update_tooltip triggered mouseoverNode mouseoverEdge mouseoutNode mouseoutEdge
  = Updated (EmptyString, hidden_style).
Proof.
  intros Hin Hc. unfold update_tooltip. cbv zeta.
  replace (existsb (contains "mouseout") triggered) with true
    by (symmetry; apply existsb_exists; now exists prop_id).
  destruct triggered; [destruct Hin | reflexivity].
Qed.

Lemma tooltip_hidden_on_mouseout_witness :
  update_tooltip ["network-topology-graph.mouseoverNodeData";
                  "network-topology-graph.mouseoutNodeData"]%string
                 (Some (node_dict (mk_node "0" "Node 0" "2.5 GHz" "8GB")))
                 None None None
  = Updated (EmptyString, hidden_style).
Proof.
  apply (tooltip_hidden_on_mouseout _ _ _ _ _ "network-topology-graph.mouseoutNodeData").
  - right; left; reflexivity.
  - reflexivity.
Defined.

(** X21. Hovering over an element the lazy view drew, with no mouseout among
    the triggers: a node shows "CPU: 2.5 GHz, Memory: 8GB" and an edge shows
    "Bandwidth: 100". *)
Theorem tooltip_of_drawn_elements (fuel : nat) (num : Z) (expanded : list Z)
    (els : list element) (prop_id : string) (rest : list string)
    (other1 other2 other3 : option dict) :
  (Z.to_nat num + 2 <= fuel)%nat ->
  build_tree_elements fuel num expanded = Some els ->
  existsb (contains "mouseout") (prop_id :: rest) = false ->
  (forall d, In (Node d) els ->
     contains "mouseoverNodeData" prop_id = true ->
     update_tooltip (prop_id :: rest) (Some (node_dict d)) other1 other2 other3
     = Updated ("CPU: 2.5 GHz, Memory: 8GB"%string, shown_style)) /\
  (forall d, In (Edge d) els ->
     contains "mouseoverNodeData" prop_id = false ->
     contains "mouseoverEdgeData" prop_id = true ->
     update_tooltip (prop_id :: rest) other1 (Some (edge_dict d)) other2 other3
     = Updated ("Bandwidth: 100"%string, shown_style)).
Proof.
  intros Hf He Hout.
  destruct (build_tree_elements_shape fuel num expanded Hf)
    as (els1 & _ & He1 & _ & _ & _ & _ & _ & Hnodes & _).
  destruct (build_tree_elements_spec fuel num expanded Hf) as (els2 & He2 & _ & Hedges).
  rewrite He in He1, He2. injection He1 as <-. injection He2 as <-.
  rewrite Forall_forall in Hnodes, Hedges. split.
  - intros d Hd Hc. apply in_nodes_of, Hnodes in Hd.
    destruct Hd as (i & _ & _ & _ & Hcpu & Hmem).
    unfold update_tooltip. cbv zeta. rewrite Hout, Hc.
    cbn [andb dict_truthy node_dict]. cbn [dict_get String.eqb Ascii.eqb Bool.eqb].
    cbn. now rewrite Hcpu, Hmem.
  - intros d Hd Hn Hc. apply in_edges_of, Hedges in Hd.
    destruct Hd as (i & _ & _ & Hbw & _).
    unfold update_tooltip. cbv zeta. rewrite Hout, Hn, Hc.
    cbn [andb dict_truthy edge_dict]. cbn. now rewrite Hbw.
Qed.

Lemma tooltip_of_drawn_elements_witness :
  (forall d, In (Node d) [Node (mk_node "0" "Node 0 [+6]" "2.5 GHz" "8GB")] ->
     contains "mouseoverNodeData" "network-topology-graph.mouseoverNodeData" = true ->
     update_tooltip ["network-topology-graph.mouseoverNodeData"]%string
                    (Some (node_dict d)) None None None
     = Updated ("CPU: 2.5 GHz, Memory: 8GB"%string, shown_style)) /\
  (forall d, In (Edge d) [Node (mk_node "0" "Node 0 [+6]" "2.5 GHz" "8GB")] ->
     contains "mouseoverNodeData" "network-topology-graph.mouseoverNodeData" = false ->
     contains "mouseoverEdgeData" "network-topology-graph.mouseoverNodeData" = true ->
     update_tooltip ["network-topology-graph.mouseoverNodeData"]%string
                    None (Some (edge_dict d)) None None
     = Updated ("Bandwidth: 100"%string, shown_style)).
Proof.
  apply (tooltip_of_drawn_elements 9 7 [] _ _ [] None None None).
  - cbn. lia.
  - reflexivity.
  - reflexivity.
Defined.

(** X22. Both panels: two clicks on the toggle button bring the panel back
    to the state it was in, and a call without a click keeps the state. *)
Theorem toggle_twice (n_clicks : pyval) (is_open : bool) :
  toggle_terminal n_clicks (toggle_terminal n_clicks is_open) = is_open /\
  toggle_network n_clicks (toggle_network n_clicks is_open) = is_open /\
  (truthy n_clicks = false ->
   toggle_terminal n_clicks is_open = is_open /\
   toggle_network n_clicks is_open = is_open).
Proof.
  unfold toggle_terminal, toggle_network.
  destruct (truthy n_clicks), is_open; repeat split; try reflexivity; discriminate.
Qed.

(** ** The element list as a whole *)

(** X24. Whatever the node-count field and the store hold, the element list
    handed to the graph has pairwise distinct node ids and no edge with an
    end outside the list; with at least one node it has one edge fewer than
    nodes. *)
Theorem view_is_well_formed (fuel : nat) (num_nodes topology_type : pyval)
                            (expanded : option (list Z)) :
  (Z.to_nat (node_count num_nodes) + 2 <= fuel)%nat ->
  exists els,
    update_network_topology fuel num_nodes topology_type expanded = Some els /\
    NoDup (node_ids els) /\
    Forall (edge_closed els) (edges_of els) /\
    (0 < node_count num_nodes ->
     List.length (node_ids els) = S (List.length (edges_of els))).
Proof.
  intros Hf. unfold update_network_topology.
  remember (node_count num_nodes) as n eqn:En. clear En.
  destruct (Z.leb_spec n 3) as [Hle | Hgt].
  - destruct (small_count_cases n Hle) as [H0 | [-> | [-> | ->]]].
    + rewrite range_nonpos by exact H0. exists []. cbn.
      split; [reflexivity|]. split; [constructor|]. split; [constructor | lia].
    + eexists. split; [vm_compute; reflexivity|].
      split; [repeat constructor; cbn; intuition discriminate|].
      split; [constructor | reflexivity].
    + eexists. split; [vm_compute; reflexivity|].
      split; [repeat constructor; cbn; intuition discriminate|].
      split; [|reflexivity].
      repeat (apply Forall_cons || apply Forall_nil); split; cbn; auto.
    + eexists. split; [vm_compute; reflexivity|].
      split; [repeat constructor; cbn; intuition discriminate|].
      split; [|reflexivity].
      repeat (apply Forall_cons || apply Forall_nil); split; cbn; auto.
  - destruct (build_tree_elements_shape fuel n (match expanded with
                                                | None => []
                                                | Some l => l
                                                end) Hf)
      as (els & ids & He & Hi & _ & Hnd & Hlen & Hcl & _).
    exists els. split; [exact He|]. split.
    { rewrite Hi. apply Injective_map_NoDup; [|exact Hnd]. intros a b. apply str_inj. }
    split; [exact Hcl|]. intros _.
    rewrite Hi, length_map, Hlen.
    replace (0 <? n) with true by (symmetry; apply Z.ltb_lt; lia). lia.
Qed.

Lemma view_is_well_formed_witness :
  exists els,
    update_network_topology 9 (PyInt 7) PyNone (Some [0; 1]) = Some els /\
    NoDup (node_ids els) /\
    Forall (edge_closed els) (edges_of els) /\
    (0 < node_count (PyInt 7) ->
     List.length (node_ids els) = S (List.length (edges_of els))).
Proof.
  apply (view_is_well_formed 9 (PyInt 7) PyNone (Some [0; 1])). cbn. lia.
Defined.
